(** * Verification of the annotation core of the SLR data-extraction tool

    The development embeds the state model, the export/import codec, the
    resume scan, the completeness validator and the finish/load control flow
    of [data-extraction-gui.py] and proves the properties its specification
    states about them.

    Conventions of the embedding:
    - a Python [str] is a [string]; a Python [int] is a [Z];
    - the question/attribute definition ([self.data]) is an association list,
      because the validator walks it in insertion order and stops at the
      first violation;
    - every other dictionary is a [gmap] keyed by strings: the modelled code
      writes to each key independently of the order in which it visits them
      (the one exception is noted at [_load_paper_progress]);
    - an uncaught Python exception is the [Raised] case of [result];
    - every [QMessageBox] call appends one [dialog] to the trace of the
      world;
    - files are values of type [file], and the outcome of each write attempt
      is read from the [disk] oracle of the world. *)

From Stdlib Require Import String Ascii ZArith List Bool Lia.
From stdpp Require Import base option list strings gmap fin_maps.

Local Open Scope string_scope.
Local Open Scope Z_scope.
Local Open Scope list_scope.

(** ** Python strings *)

Module PyStr.

(** [s.startswith(p)] *)
Fixpoint startswith (p s : string) : bool :=
  match p with
  | EmptyString => true
  | String c p' =>
      match s with
      | EmptyString => false
      | String d s' => if Ascii.eqb c d then startswith p' s' else false
      end
  end.

(** [s[n:]] for a non-negative literal [n] *)
Fixpoint slice_from (n : nat) (s : string) : string :=
  match n with
  | O => s
  | S n' =>
      match s with
      | EmptyString => EmptyString
      | String _ s' => slice_from n' s'
      end
  end.

(** Truth value of a string: the empty string is false. *)
Definition truthy (s : string) : bool :=
  match s with
  | EmptyString => false
  | String _ _ => true
  end.

(** Characters that [str.strip()] removes, for the code points a [string]
    character can hold: TAB..CR, FS..US, space, NEL and NBSP. *)
Definition is_space (c : ascii) : bool :=
  let n := nat_of_ascii c in
  ((9 <=? n)%nat && (n <=? 13)%nat)
  || ((28 <=? n)%nat && (n <=? 32)%nat)
  || (n =? 133)%nat || (n =? 160)%nat.

Fixpoint lstrip (s : string) : string :=
  match s with
  | EmptyString => EmptyString
  | String c s' => if is_space c then lstrip s' else s
  end.

Fixpoint rstrip (s : string) : string :=
  match s with
  | EmptyString => EmptyString
  | String c s' =>
      match rstrip s' with
      | EmptyString => if is_space c then EmptyString else String c EmptyString
      | r => String c r
      end
  end.

(** [s.strip()] *)
Definition strip (s : string) : string := rstrip (lstrip s).

(** A string that is empty once stripped. *)
Definition blank (s : string) : bool := negb (truthy (strip s)).

End PyStr.

(** ** Python lists of strings *)

Module PyList.

(** [x in l] *)
Definition contains (x : string) (l : list string) : bool :=
  bool_decide (x ∈ l).

(** [l.remove(x)]: drops the first occurrence.  The code only calls it when
    [x in l], so the [ValueError] of an absent element cannot arise. *)
Fixpoint remove (x : string) (l : list string) : list string :=
  match l with
  | [] => []
  | y :: l' => if decide (x = y) then l' else y :: remove x l'
  end.

(** [l.append(x)] *)
Definition append (l : list string) (x : string) : list string := l ++ [x].

End PyList.

(** ** Exceptions *)

Inductive exn :=
| KeyError (key : string)
| IndexError
| OSError.

Inductive result (A : Type) :=
| Ok (a : A)
| Raised (e : exn).
Arguments Ok {A} a.
Arguments Raised {A} e.

#[global] Instance result_ret : MRet result := @Ok.
#[global] Instance result_bind : MBind result := λ A B f m,
  match m with
  | Ok a => f a
  | Raised e => Raised e
  end.

(** [d[k]] *)
Definition getitem {V} (d : gmap string V) (k : string) : result V :=
  match d !! k with
  | Some v => Ok v
  | None => Raised (KeyError k)
  end.

(** [d.get(k, dflt)] *)
Definition get {V} (d : gmap string V) (k : string) (dflt : V) : V :=
  default dflt (d !! k).

(** [l[i]] on a list, with Python's negative indices *)
Definition index_list {A} (l : list A) (i : Z) : result A :=
  let n := Z.of_nat (length l) in
  let j := if i <? 0 then n + i else i in
  if (j <? 0) || (n <=? j) then Raised IndexError
  else match l !! Z.to_nat j with
       | Some x => Ok x
       | None => Raised IndexError
       end.

(** [for k, v in d.items(): out[k] = f(k, v)], starting from [init], where
    [f] may raise: the first exception aborts the loop. *)
Definition dict_traverse_into {A B} (init : gmap string B)
    (f : string → A → result B) (d : gmap string A) : result (gmap string B) :=
  map_fold (λ k v acc, out ← acc; r ← f k v; Ok (<[k := r]> out)) (Ok init) d.

Definition dict_traverse {A B} (f : string → A → result B)
    (d : gmap string A) : result (gmap string B) :=
  dict_traverse_into ∅ f d.

(** Truth value of a dictionary: the empty dictionary is false. *)
Definition dict_truthy {V} (d : gmap string V) : bool :=
  negb (bool_decide (d = ∅)).

(** ** Data model *)

(** *** The question/attribute definition ([data-items.json]) *)

Record toggle_option := {
  to_enabled : bool;
  to_label : option string;
}.

Record mandatory_text_field := {
  mtf_enabled : bool;
  mtf_label : option string;
  mtf_placeholder : option string;
}.

(** The value of one attribute: the legacy plain option list, or the
    dictionary format with its optional configuration entries. *)
Inductive attribute_options :=
| OptionList (options : list string)
| OptionDict (options : list string)
             (toggle : option toggle_option)
             (mandatory_text : option mandatory_text_field).

Definition options_dict := list (string * attribute_options).
Definition schema := list (string * options_dict).

(** *** Paper metadata ([self.papers], filled from the CSV file) *)

Record paper_info := {
  itemkey : string;
  title : string;
  authors : string;
  year : string;
}.

(** *** The persisted store ([export.json]) *)

Record paper_snapshot := {
  ps_title : string;
  ps_authors : string;
  ps_year : string;
}.

(** A toggle entry is the structured [{enabled, text}] dictionary or a
    legacy bare boolean. *)
Inductive toggle_value :=
| ToggleDict (enabled : option bool) (text : option string)
| ToggleBool (b : bool).

(** One record of the store.  Every key is optional when a record is read
    back, because the code reads each of them with [dict.get].  The model
    takes a document of the store to be a JSON object of such records, the
    shape the program writes; a file that parses to anything else is
    outside it. *)
Record paper_record := {
  r_paper : option paper_snapshot;
  r_excluded_from_full_text_review : option bool;
  r_exclusion_reason : option string;
  r_responses : option (gmap string (gmap string (list string)));
  r_toggle_states : option (gmap string (gmap string toggle_value));
  r_mandatory_texts : option (gmap string (gmap string string));
}.

(** The empty dictionary [{}] read as a record. *)
Definition empty_record : paper_record :=
  {| r_paper := None; r_excluded_from_full_text_review := None;
     r_exclusion_reason := None; r_responses := None;
     r_toggle_states := None; r_mandatory_texts := None |}.

Abbreviation store := (gmap string paper_record).

(** *** The session marker ([.session.json]) *)

Record session_data := {
  sd_user : option string;
  sd_current_paper_index : option Z;
  sd_current_paper_key : option string;
}.

(** *** Files *)

(** What a path holds: nothing; a file that cannot be opened; bytes that are
    not a JSON document; the proper prefix of a document that an interrupted
    [json.dump] left behind; or a complete document. *)
Inductive file (A : Type) :=
| Missing
| Unreadable
| Malformed
| Truncated
| Document (content : A).
Arguments Missing {A}.
Arguments Unreadable {A}.
Arguments Malformed {A}.
Arguments Truncated {A}.
Arguments Document {A} content.

(** [os.path.exists(path)] *)
Definition exists_ {A} (f : file A) : bool :=
  match f with Missing => false | _ => true end.

(** [with open(path, "r") as f: json.load(f)]: [None] stands for the
    [IOError] or [json.JSONDecodeError] that every call site catches. *)
Definition load_json {A} (f : file A) : option A :=
  match f with Document a => Some a | _ => None end.

(** How the environment answers one [with open(path, "w") as f:
    json.dump(...)]: it completes, [open] raises before the file is touched,
    or an error interrupts the dump after [open] has truncated the file. *)
Inductive write_outcome := WriteOk | OpenFails | DumpFails.

Definition dump_json {A} (old : file A) (content : A) (o : write_outcome)
    : result unit * file A :=
  match o with
  | WriteOk => (Ok (), Document content)
  | OpenFails => (Raised OSError, old)
  | DumpFails => (Raised OSError, Truncated)
  end.

(** *** Dialogs *)

(** The three warnings of the validator, with the values they interpolate. *)
Inductive violation :=
| MissingSelection (question_key attribute : string)
| MissingDiscussionText (question_key attribute : string)
| MissingMandatoryText (question_key attribute field_label : string).

#[global] Instance violation_eq_dec : EqDecision violation.
Proof. solve_decision. Defined.

(** What the external sanity-check collaborator answers. *)
Inductive sanity_result :=
| SanityRaised (message : string)
| SanityViolations (violations : list string).

(** One constructor per [QMessageBox] call of the modelled functions. *)
Inductive dialog :=
| ValidationWarning (v : violation)
| ExportError (e : exn)
| SanityCheckError (message : string)
| SanityChecksFailed (violations : list string)
| Success
| Completed.

(** *** The in-memory state of [DataExtractionGUI] *)

Record GUI := {
  user : string;
  data : schema;
  papers : gmap string paper_info;
  paper_keys : list string;
  current_paper_index : Z;
  selected_values : gmap string (gmap string (gmap string (list string)));
  selected_Other_text : gmap string (gmap string (gmap string string));
  (** the discussion line edits that exist, with the text each one holds *)
  discussion_text_inputs : gmap string string;
  discussion_texts : gmap string string;
  toggle_states : gmap string (gmap string (gmap string bool));
  toggle_texts : gmap string (gmap string (gmap string string));
  mandatory_texts : gmap string (gmap string (gmap string string));
  excluded_papers : gmap string bool;
  excluded_reasons : gmap string string;
}.

(** The process and its environment. *)
Record world := {
  gui : GUI;
  export_json : file store;
  session_json : file session_data;
  (** answers of the environment to the write attempts still to come; an
      exhausted list answers [WriteOk] *)
  disk : list write_outcome;
  dialogs : list dialog;
  closed : bool;
}.

(** Assignments to the attributes of [self] that the modelled code writes. *)
Definition set_current_paper_index (i : Z) (g : GUI) : GUI :=
  {| user := user g; data := data g; papers := papers g;
     paper_keys := paper_keys g; current_paper_index := i;
     selected_values := selected_values g;
     selected_Other_text := selected_Other_text g;
     discussion_text_inputs := discussion_text_inputs g;
     discussion_texts := discussion_texts g;
     toggle_states := toggle_states g; toggle_texts := toggle_texts g;
     mandatory_texts := mandatory_texts g;
     excluded_papers := excluded_papers g;
     excluded_reasons := excluded_reasons g |}.

Definition set_selections
    (sv : gmap string (gmap string (gmap string (list string))))
    (ot : gmap string (gmap string (gmap string string)))
    (dt : gmap string string) (g : GUI) : GUI :=
  {| user := user g; data := data g; papers := papers g;
     paper_keys := paper_keys g; current_paper_index := current_paper_index g;
     selected_values := sv;
     selected_Other_text := ot;
     discussion_text_inputs := discussion_text_inputs g;
     discussion_texts := dt;
     toggle_states := toggle_states g; toggle_texts := toggle_texts g;
     mandatory_texts := mandatory_texts g;
     excluded_papers := excluded_papers g;
     excluded_reasons := excluded_reasons g |}.

Definition set_discussion_text_inputs (inputs : gmap string string)
    (g : GUI) : GUI :=
  {| user := user g; data := data g; papers := papers g;
     paper_keys := paper_keys g; current_paper_index := current_paper_index g;
     selected_values := selected_values g;
     selected_Other_text := selected_Other_text g;
     discussion_text_inputs := inputs;
     discussion_texts := discussion_texts g;
     toggle_states := toggle_states g; toggle_texts := toggle_texts g;
     mandatory_texts := mandatory_texts g;
     excluded_papers := excluded_papers g;
     excluded_reasons := excluded_reasons g |}.

Definition set_toggles
    (ts : gmap string (gmap string (gmap string bool)))
    (tt : gmap string (gmap string (gmap string string))) (g : GUI) : GUI :=
  {| user := user g; data := data g; papers := papers g;
     paper_keys := paper_keys g; current_paper_index := current_paper_index g;
     selected_values := selected_values g;
     selected_Other_text := selected_Other_text g;
     discussion_text_inputs := discussion_text_inputs g;
     discussion_texts := discussion_texts g;
     toggle_states := ts; toggle_texts := tt;
     mandatory_texts := mandatory_texts g;
     excluded_papers := excluded_papers g;
     excluded_reasons := excluded_reasons g |}.

Definition set_mandatory_texts
    (mt : gmap string (gmap string (gmap string string))) (g : GUI) : GUI :=
  {| user := user g; data := data g; papers := papers g;
     paper_keys := paper_keys g; current_paper_index := current_paper_index g;
     selected_values := selected_values g;
     selected_Other_text := selected_Other_text g;
     discussion_text_inputs := discussion_text_inputs g;
     discussion_texts := discussion_texts g;
     toggle_states := toggle_states g; toggle_texts := toggle_texts g;
     mandatory_texts := mt;
     excluded_papers := excluded_papers g;
     excluded_reasons := excluded_reasons g |}.

Definition set_exclusion (ep : gmap string bool) (er : gmap string string)
    (g : GUI) : GUI :=
  {| user := user g; data := data g; papers := papers g;
     paper_keys := paper_keys g; current_paper_index := current_paper_index g;
     selected_values := selected_values g;
     selected_Other_text := selected_Other_text g;
     discussion_text_inputs := discussion_text_inputs g;
     discussion_texts := discussion_texts g;
     toggle_states := toggle_states g; toggle_texts := toggle_texts g;
     mandatory_texts := mandatory_texts g;
     excluded_papers := ep;
     excluded_reasons := er |}.

Definition set_gui (g : GUI) (w : world) : world :=
  {| gui := g; export_json := export_json w; session_json := session_json w;
     disk := disk w; dialogs := dialogs w; closed := closed w |}.

Definition set_export_json (f : file store) (w : world) : world :=
  {| gui := gui w; export_json := f; session_json := session_json w;
     disk := disk w; dialogs := dialogs w; closed := closed w |}.

Definition set_session_json (f : file session_data) (w : world) : world :=
  {| gui := gui w; export_json := export_json w; session_json := f;
     disk := disk w; dialogs := dialogs w; closed := closed w |}.

Definition set_disk (d : list write_outcome) (w : world) : world :=
  {| gui := gui w; export_json := export_json w;
     session_json := session_json w;
     disk := d; dialogs := dialogs w; closed := closed w |}.

Definition set_closed (b : bool) (w : world) : world :=
  {| gui := gui w; export_json := export_json w;
     session_json := session_json w;
     disk := disk w; dialogs := dialogs w; closed := b |}.

(** [QMessageBox.warning/critical/information(...)] *)
Definition show (d : dialog) (w : world) : world :=
  {| gui := gui w; export_json := export_json w;
     session_json := session_json w;
     disk := disk w; dialogs := dialogs w ++ [d]; closed := closed w |}.

(** The answer of the environment to the next write attempt. *)
Definition next_write (w : world) : write_outcome :=
  match disk w with
  | [] => WriteOk
  | o :: _ => o
  end.

Definition consume_write (w : world) : world := set_disk (tail (disk w)) w.

(** ** The export/import codec *)

(** [f"{entry_key}_{question_key}_{attribute}_discussion"] *)
Definition discussion_key (entry_key question_key attribute : string)
    : string :=
  entry_key +:+ "_" +:+ question_key +:+ "_" +:+ attribute +:+ "_discussion".

(** *** Encoding one selection list ([_perform_export], lines 2099-2135) *)

(** The "Other" step.  [Other_text] is the subscript
    [self.selected_Other_text[entry_key][question_key][attribute]], which
    Python evaluates only when ["Other" in selections]. *)
Definition encode_Other (selections : list string)
    (Other_text : result string) : result (list string) :=
  if PyList.contains "Other" selections then
    t ← Other_text;
    if PyStr.truthy t then
      Ok (PyList.append (PyList.remove "Other" selections) ("Other: " +:+ t))
    else Ok selections
  else Ok selections.

(** The discussion text the encoder uses: the tracked value
    [self.discussion_texts.get(discussion_key)], replaced by the text of the
    line edit when it is [None] or empty and the line edit exists. *)
Definition export_discussion_text (tracked input : option string)
    : option string :=
  if (bool_decide (tracked = None) || bool_decide (tracked = Some ""))
     && bool_decide (is_Some input)
  then input else tracked.

Definition option_truthy (o : option string) : bool :=
  match o with
  | Some t => PyStr.truthy t
  | None => false
  end.

(** The "Discussion needed" step. *)
Definition encode_Discussion (selections : list string)
    (tracked input : option string) : list string :=
  if PyList.contains "Discussion needed" selections then
    match export_discussion_text tracked input with
    | Some t =>
        if PyStr.truthy t then
          PyList.append (PyList.remove "Discussion needed" selections)
                        ("Discussion needed: " +:+ t)
        else selections
    | None => selections
    end
  else selections.

Definition encode_selections (selections : list string)
    (Other_text : result string) (tracked input : option string)
    : result (list string) :=
  s ← encode_Other selections Other_text;
  Ok (encode_Discussion s tracked input).

(** *** Decoding one selection list ([_load_paper_progress], lines 744-777) *)

(** The three places the decoding loop writes to: the selection list and
    the "Other" text of the attribute ([None] while the attribute has no
    entry in [selected_Other_text]) and the last value assigned to
    [self.discussion_texts[discussion_key]], if any. *)
Record decoded := {
  dec_selected : list string;
  dec_Other_text : option string;
  dec_discussion_text : option string;
}.

Definition decode_selection (d : decoded) (selection : string) : decoded :=
  if PyStr.startswith "Other: " selection then
    {| dec_selected := PyList.append (dec_selected d) "Other";
       dec_Other_text := Some (PyStr.slice_from 7 selection);
       dec_discussion_text := dec_discussion_text d |}
  else if PyStr.startswith "Discussion needed: " selection then
    {| dec_selected := PyList.append (dec_selected d) "Discussion needed";
       dec_Other_text :=
         match dec_Other_text d with
         | None => Some ""
         | Some t => Some t
         end;
       dec_discussion_text := Some (PyStr.slice_from 19 selection) |}
  else
    {| dec_selected := PyList.append (dec_selected d) selection;
       dec_Other_text := dec_Other_text d;
       dec_discussion_text := dec_discussion_text d |}.

Definition decode_selections (d : decoded) (selections : list string)
    : decoded :=
  fold_left decode_selection selections d.

(** The state of an attribute that line 739-741 has just created. *)
Definition fresh_attribute : decoded :=
  {| dec_selected := []; dec_Other_text := Some "";
     dec_discussion_text := None |}.

(** *** [_perform_export] *)

(** [self.selected_Other_text[entry_key][question_key][attribute]] *)
Definition Other_text_of (g : GUI) (entry_key question_key attribute : string)
    : result string :=
  by_entry ← getitem (selected_Other_text g) entry_key;
  by_question ← getitem by_entry question_key;
  getitem by_question attribute.

(** Lines 2098-2135: the encoded list of one attribute. *)
Definition export_attribute (g : GUI) (entry_key question_key : string)
    (attribute : string) (selections : list string) : result (list string) :=
  let discussion_key := discussion_key entry_key question_key attribute in
  encode_selections selections
    (Other_text_of g entry_key question_key attribute)
    (discussion_texts g !! discussion_key)
    (discussion_text_inputs g !! discussion_key).

(** Lines 2096-2135: the ["responses"] entry of one paper. *)
Definition export_responses (g : GUI) (entry_key : string)
    (by_question : gmap string (gmap string (list string)))
    : result (gmap string (gmap string (list string))) :=
  dict_traverse
    (λ question_key by_attribute,
       dict_traverse (export_attribute g entry_key question_key) by_attribute)
    by_question.

(** Lines 2137-2150: only the toggles that are enabled are written, a
    question appears only when one of its toggles is. *)
Definition export_toggles (g : GUI) (entry_key : string)
    : gmap string (gmap string toggle_value) :=
  match toggle_states g !! entry_key with
  | None => ∅
  | Some by_question =>
      map_imap
        (λ qk attrs,
           let out :=
             map_imap
               (λ attr (enabled : bool),
                  if enabled then
                    Some (ToggleDict (Some true)
                            (Some (get (get (get (toggle_texts g) entry_key ∅)
                                            qk ∅) attr "")))
                  else None)
               attrs in
           if dict_truthy out then Some out else None)
        by_question
  end.

(** Lines 2155-2163: only the mandatory texts that are not blank. *)
Definition export_mandatory (g : GUI) (entry_key : string)
    : gmap string (gmap string string) :=
  match mandatory_texts g !! entry_key with
  | None => ∅
  | Some by_question =>
      map_imap
        (λ qk attrs,
           let out :=
             map_imap
               (λ attr text,
                  if PyStr.truthy (PyStr.strip text) then Some text else None)
               attrs in
           if dict_truthy out then Some out else None)
        by_question
  end.

(** Lines 2082-2166: the record written for one paper held in memory. *)
Definition export_paper (g : GUI) (entry_key : string)
    (by_question : gmap string (gmap string (list string)))
    : result paper_record :=
  responses ← export_responses g entry_key by_question;
  let toggle_out := export_toggles g entry_key in
  let mandatory_out := export_mandatory g entry_key in
  Ok {| r_paper :=
          Some {| ps_title :=
                    from_option title "Unknown" (papers g !! entry_key);
                  ps_authors :=
                    from_option authors "Unknown" (papers g !! entry_key);
                  ps_year :=
                    from_option year "Unknown" (papers g !! entry_key) |};
        r_excluded_from_full_text_review :=
          Some (get (excluded_papers g) entry_key false);
        r_exclusion_reason := Some (get (excluded_reasons g) entry_key "");
        r_responses := Some responses;
        r_toggle_states :=
          if dict_truthy toggle_out then Some toggle_out else None;
        r_mandatory_texts :=
          if dict_truthy mandatory_out then Some mandatory_out else None |}.

(** Lines 2068-2078: the store read back before writing.  A file that is
    missing, cannot be opened or does not parse leaves [output] empty. *)
Definition existing_export (f : file store) : store :=
  if exists_ f then
    match load_json f with
    | Some existing => existing
    | None => ∅
    end
  else ∅.

(** Lines 2068-2166: the dictionary handed to [json.dump]. *)
Definition export_output (g : GUI) (f : file store) : result store :=
  dict_traverse_into (existing_export f) (export_paper g) (selected_values g).

(** [_perform_export]: every exception raised while the output is built or
    written is caught, reported in a dialog and turned into [False]. *)
Definition _perform_export (w : world) : bool * world :=
  match export_output (gui w) (export_json w) with
  | Raised e => (false, show (ExportError e) w)
  | Ok output =>
      let '(r, f) := dump_json (export_json w) output (next_write w) in
      let w' := set_export_json f (consume_write w) in
      match r with
      | Ok _ => (true, w')
      | Raised e => (false, show (ExportError e) w')
      end
  end.

(** *** [_load_paper_progress] *)

(** [for q, attrs in new.items(): for a, v in attrs.items():
    old[q][a] = f(v)], creating [old[q]] when it is absent. *)
Definition update_nested {A B} (f : A → B) (new : gmap string (gmap string A))
    (old : gmap string (gmap string B)) : gmap string (gmap string B) :=
  map_fold
    (λ q attrs acc,
       <[q := map_fold (λ a v inner, <[a := f v]> inner) (get acc q ∅) attrs]>
         acc)
    old new.

(** Lines 710-715 *)
Definition toggle_enabled (val : toggle_value) : bool :=
  match val with
  | ToggleDict enabled _ => default true enabled
  | ToggleBool b => b
  end.

Definition toggle_text (val : toggle_value) : string :=
  match val with
  | ToggleDict _ text => default "" text
  | ToggleBool _ => ""
  end.

(** Lines 738-777 for one attribute of one question.  [state] holds
    [self.selected_values[entry_key][question_key]],
    [self.selected_Other_text[entry_key][question_key]] and
    [self.discussion_texts]. *)
Definition load_attribute (entry_key question_key attribute : string)
    (selections : list string)
    (state : gmap string (list string) * gmap string string
             * gmap string string)
    : gmap string (list string) * gmap string string * gmap string string :=
  let '(sv, ot, dt) := state in
  let '(sv, ot) :=
    if bool_decide (sv !! attribute = None)
    then (<[attribute := []]> sv, <[attribute := ""]> ot)
    else (sv, ot) in
  let d :=
    decode_selections
      {| dec_selected := get sv attribute [];
         dec_Other_text := ot !! attribute;
         dec_discussion_text := None |}
      selections in
  (<[attribute := dec_selected d]> sv,
   match dec_Other_text d with
   | Some t => <[attribute := t]> ot
   | None => ot
   end,
   match dec_discussion_text d with
   | Some t => <[discussion_key entry_key question_key attribute := t]> dt
   | None => dt
   end).

(** Lines 733-777 for one question.  [state] holds
    [self.selected_values[entry_key]], [self.selected_Other_text[entry_key]]
    and [self.discussion_texts]. *)
Definition load_question (entry_key question_key : string)
    (by_attribute : gmap string (list string))
    (state : gmap string (gmap string (list string))
             * gmap string (gmap string string) * gmap string string)
    : gmap string (gmap string (list string))
      * gmap string (gmap string string) * gmap string string :=
  let '(sv, ot, dt) := state in
  let '(sv, ot) :=
    if bool_decide (sv !! question_key = None)
    then (<[question_key := ∅]> sv, <[question_key := ∅]> ot)
    else (sv, ot) in
  let '(sv_q, ot_q, dt) :=
    map_fold (load_attribute entry_key question_key)
             (get sv question_key ∅, get ot question_key ∅, dt)
             by_attribute in
  (<[question_key := sv_q]> sv, <[question_key := ot_q]> ot, dt).

(** [_load_paper_progress(entry_key)].  Its only caller, [load_paper], has
    just set [self.selected_values[entry_key]] and
    [self.selected_Other_text[entry_key]] to [{}] (lines 645-650); the model
    reads these two entries with an empty default and does not represent
    the [KeyError] that their absence would cause.  The discussion texts go
    to the flat dictionary [self.discussion_texts] under a concatenated key;
    should two attributes of one record share that key, the text kept is
    the one of the attribute visited last, which for the [gmap] of the
    model is the last in the order of [map_fold] and not in the order of the
    file. *)
Definition _load_paper_progress (entry_key : string) (f : file store)
    (g : GUI) : GUI :=
  if negb (exists_ f) then g else
  match load_json f with
  | None => g
  | Some exported_data =>
      match exported_data !! entry_key with
      | None => g
      | Some paper_data =>
          let g :=
            set_exclusion
              (<[entry_key :=
                   default false (r_excluded_from_full_text_review paper_data)]>
                 (excluded_papers g))
              (<[entry_key := default "" (r_exclusion_reason paper_data)]>
                 (excluded_reasons g))
              g in
          let toggle_data := default ∅ (r_toggle_states paper_data) in
          let g :=
            if dict_truthy toggle_data then
              set_toggles
                (<[entry_key :=
                     update_nested toggle_enabled toggle_data
                       (get (toggle_states g) entry_key ∅)]>
                   (toggle_states g))
                (<[entry_key :=
                     update_nested toggle_text toggle_data
                       (get (toggle_texts g) entry_key ∅)]>
                   (toggle_texts g))
                g
            else g in
          let mandatory_data := default ∅ (r_mandatory_texts paper_data) in
          let g :=
            if dict_truthy mandatory_data then
              set_mandatory_texts
                (<[entry_key :=
                     update_nested id mandatory_data
                       (get (mandatory_texts g) entry_key ∅)]>
                   (mandatory_texts g))
                g
            else g in
          let responses := default ∅ (r_responses paper_data) in
          let '(sv, ot, dt) :=
            map_fold (load_question entry_key)
                     (get (selected_values g) entry_key ∅,
                      get (selected_Other_text g) entry_key ∅,
                      discussion_texts g)
                     responses in
          if dict_truthy responses then
            set_selections (<[entry_key := sv]> (selected_values g))
                           (<[entry_key := ot]> (selected_Other_text g))
                           dt g
          else g
      end
  end.

(** ** The resume scan *)

(** Lines 343-350: a record whose selection lists are all empty. *)
Definition responses_empty
    (responses : gmap string (gmap string (list string))) : bool :=
  forallb
    (λ '(_, by_attribute),
       forallb (λ '(_, attribute_list), bool_decide (attribute_list = []))
               (map_to_list by_attribute))
    (map_to_list responses).

(** Lines 328-353: the loop over [enumerate(self.paper_keys)], started at
    [index].  It returns the index at which the loop returns, or [None] when
    the list is exhausted, and the updated [self.excluded_papers]. *)
Fixpoint scan_papers (exported_data : store) (index : Z)
    (keys : list string) (excluded : gmap string bool)
    : option Z * gmap string bool :=
  match keys with
  | [] => (None, excluded)
  | paper_key :: rest =>
      match exported_data !! paper_key with
      | None => (Some index, excluded)
      | Some paper_data =>
          if default false (r_excluded_from_full_text_review paper_data)
          then scan_papers exported_data (index + 1) rest
                           (<[paper_key := true]> excluded)
          else if responses_empty (default ∅ (r_responses paper_data))
          then (Some index, excluded)
          else scan_papers exported_data (index + 1) rest excluded
      end
  end.

(** Lines 300-314: the index a session marker resumes at, when the marker
    can be read, belongs to the current user and names an index in range. *)
Definition session_resume_index (g : GUI) (f : file session_data)
    : option Z :=
  if exists_ f then
    match load_json f with
    | Some session =>
        if bool_decide (sd_user session = Some (user g)) then
          match sd_current_paper_index session with
          | Some resume_index =>
              if (0 <=? resume_index)
                 && (resume_index <? Z.of_nat (length (paper_keys g)))
              then Some resume_index else None
          | None => None
          end
        else None
    | None => None
    end
  else None.

Definition find_first_unprocessed_paper (w : world) : Z * world :=
  match session_resume_index (gui w) (session_json w) with
  | Some resume_index => (resume_index, w)
  | None =>
      if negb (exists_ (export_json w)) then (0, w) else
      match load_json (export_json w) with
      | None => (0, w)
      | Some exported_data =>
          let '(found, excluded) :=
            scan_papers exported_data 0 (paper_keys (gui w))
                        (excluded_papers (gui w)) in
          (default (Z.of_nat (length (paper_keys (gui w)))) found,
           set_gui (set_exclusion excluded (excluded_reasons (gui w)) (gui w))
                   w)
      end
  end.

(** ** The completeness validator *)

(** Lines 876-939: the checks made for one attribute, in the order of the
    code; the first one that fails is the warning shown. *)
Definition check_attribute (g : GUI) (entry_key question_key : string)
    (by_question : gmap string (gmap string (list string)))
    (attribute : string) (options : attribute_options) : option violation :=
  let selections := get (get by_question question_key ∅) attribute [] in
  if bool_decide (selections = []) then
    Some (MissingSelection question_key attribute)
  else if PyList.contains "Discussion needed" selections
          && from_option PyStr.blank false
               (discussion_text_inputs g
                  !! discussion_key entry_key question_key attribute)
  then Some (MissingDiscussionText question_key attribute)
  else
    match options with
    | OptionDict _ _ (Some mandatory_text_config) =>
        if mtf_enabled mandatory_text_config
           && negb (bool_decide (selections = []))
           && PyStr.blank
                (get (get (get (mandatory_texts g) entry_key ∅) question_key ∅)
                     attribute "")
        then Some (MissingMandatoryText question_key attribute
                     (default "Additional information"
                        (mtf_label mandatory_text_config)))
        else None
    | _ => None
    end.

(** Line 875: [for attribute in options_dict.keys()], left at the first
    warning. *)
Fixpoint check_question (g : GUI) (entry_key question_key : string)
    (by_question : gmap string (gmap string (list string)))
    (attributes : options_dict) : option violation :=
  match attributes with
  | [] => None
  | (attribute, options) :: rest =>
      match check_attribute g entry_key question_key by_question
                            attribute options with
      | Some v => Some v
      | None => check_question g entry_key question_key by_question rest
      end
  end.

(** Line 873: [for question_key, options_dict in self.data.items()]. *)
Fixpoint check_questions (g : GUI) (entry_key : string)
    (by_question : gmap string (gmap string (list string)))
    (questions : schema) : option violation :=
  match questions with
  | [] => None
  | (question_key, attributes) :: rest =>
      match check_question g entry_key question_key by_question
                           attributes with
      | Some v => Some v
      | None => check_questions g entry_key by_question rest
      end
  end.

(** Whether the loops of the validator reach their body at all. *)
Definition has_attribute (questions : schema) : bool :=
  existsb (λ '(_, attributes), negb (bool_decide (attributes = [])))
          questions.

(** The warning that [validate_all_required_fields] would show: [None] when
    it returns [True].  [self.selected_values[entry_key]] is read inside
    the loops, so its [KeyError] needs an attribute to check. *)
Definition first_violation (g : GUI) : result (option violation) :=
  entry_key ← index_list (paper_keys g) (current_paper_index g);
  if get (excluded_papers g) entry_key false then Ok None
  else if has_attribute (data g) then
    by_question ← getitem (selected_values g) entry_key;
    Ok (check_questions g entry_key by_question (data g))
  else Ok None.

Definition validate_all_required_fields (w : world) : result (bool * world) :=
  v ← first_violation (gui w);
  match v with
  | Some v => Ok (false, show (ValidationWarning v) w)
  | None => Ok (true, w)
  end.

(** ** The session marker *)

(** [_save_session_state]: an [IOError] of the write is swallowed. *)
Definition _save_session_state (w : world) : result world :=
  let g := gui w in
  current_paper_key ←
    (if current_paper_index g <? Z.of_nat (length (paper_keys g))
     then k ← index_list (paper_keys g) (current_paper_index g); Ok (Some k)
     else Ok None);
  let session :=
    {| sd_user := Some (user g);
       sd_current_paper_index := Some (current_paper_index g);
       sd_current_paper_key := current_paper_key |} in
  let '(_, f) := dump_json (session_json w) session (next_write w) in
  Ok (set_session_json f (consume_write w)).

(** ** Finishing and loading papers *)

Section Control.

(** The widget tree is built by [create_question_tab], one call per research
    question; the validator and the encoder read its discussion line edits
    through [discussion_text_inputs]. *)
Variable create_question_tab : string → string → options_dict → GUI → result GUI.

(** [sanity_checks.validate_paper(paper_entry, config_path=...)] *)
Variable validate_paper : paper_record → sanity_result.

(** [closeEvent]: export, save the session marker, accept the event. *)
Definition closeEvent (w : world) : result world :=
  _save_session_state (_perform_export w).2.

(** [self.close()] *)
Definition close (w : world) : result world :=
  w ← closeEvent w; Ok (set_closed true w).

(** [on_exit] *)
Definition on_exit (w : world) : result world :=
  w ← _save_session_state (_perform_export w).2; close w.

(** Lines 645-650 *)
Definition init_tracking (entry_key : string) (f : file store) (g : GUI)
    : GUI :=
  if bool_decide (selected_values g !! entry_key = None) then
    _load_paper_progress entry_key f
      (set_toggles (<[entry_key := ∅]> (toggle_states g)) (toggle_texts g)
         (set_selections (<[entry_key := ∅]> (selected_values g))
                         (<[entry_key := ∅]> (selected_Other_text g))
                         (discussion_texts g) g))
  else g.

(** Lines 652-658 *)
Fixpoint create_question_tabs (entry_key : string) (questions : schema)
    (g : GUI) : result GUI :=
  match questions with
  | [] => Ok g
  | (question_key, options_dict) :: rest =>
      g ← create_question_tab entry_key question_key options_dict g;
      create_question_tabs entry_key rest g
  end.

Definition load_paper (index : Z) (w : world) : result world :=
  if Z.of_nat (length (paper_keys (gui w))) <=? index then
    close (show Completed w)
  else
    let g := set_current_paper_index index (gui w) in
    entry_key ← index_list (paper_keys g) index;
    _ ← getitem (papers g) entry_key;
    let g := set_discussion_text_inputs ∅ g in
    let g := init_tracking entry_key (export_json w) g in
    g ← create_question_tabs entry_key (data g) g;
    _save_session_state (set_gui g w).

(** Lines 817-824: the record handed to the sanity checks. *)
Definition exported_entry (f : file store) (entry_key : string)
    : paper_record :=
  get (default ∅ (load_json f)) entry_key empty_record.

Definition finish_paper (w : world) : result world :=
  entry_key ← index_list (paper_keys (gui w)) (current_paper_index (gui w));
  if get (excluded_papers (gui w)) entry_key false then
    load_paper (current_paper_index (gui w) + 1) w
  else
    '(valid, w) ← validate_all_required_fields w;
    if negb valid then Ok w else
    let w := (_perform_export w).2 in
    match validate_paper (exported_entry (export_json w) entry_key) with
    | SanityRaised message => Ok (show (SanityCheckError message) w)
    | SanityViolations violations =>
        if bool_decide (violations = []) then
          load_paper (current_paper_index (gui w) + 1) (show Success w)
        else Ok (show (SanityChecksFailed violations) w)
    end.

End Control.

(** ** Vocabulary of the specification *)







(** ** Example data

    The configuration of the repository's test: one question [RQ1] with one
    attribute [Category] offering [Option A] and [Other], and the papers
    [P1] and [P2] assigned to the user. *)

Definition example_schema : schema :=
  [("RQ1", [("Category", OptionList ["Option A"; "Other"])])].

Definition example_papers : gmap string paper_info :=
  {[ "P1" := {| itemkey := "P1"; title := "Paper 1"; authors := "Author A";
                year := "2024" |};
     "P2" := {| itemkey := "P2"; title := "Paper 2"; authors := "Author B";
                year := "2025" |} ]}.

(** The state in which the paper at [index] is loaded and has, for
    [RQ1]/[Category], the given selections, OtherText and discussion line
    edit. *)
Definition example_gui (index : Z) (selections : list string)
    (Other_text discussion : string) : GUI :=
  {| user := "Moritz"; data := example_schema; papers := example_papers;
     paper_keys := ["P1"; "P2"]; current_paper_index := index;
     selected_values := {[ "P1" := {[ "RQ1" := {[ "Category" := selections ]} ]} ]};
     selected_Other_text := {[ "P1" := {[ "RQ1" := {[ "Category" := Other_text ]} ]} ]};
     discussion_text_inputs := {[ "P1_RQ1_Category_discussion" := discussion ]};
     discussion_texts := {[ "P1_RQ1_Category_discussion" := discussion ]};
     toggle_states := {[ "P1" := {[ "RQ1" := {[ "Category" := false ]} ]} ]};
     toggle_texts := ∅; mandatory_texts := ∅;
     excluded_papers := ∅; excluded_reasons := ∅ |}.

Definition example_world (g : GUI) (f : file store)
    (d : list write_outcome) : world :=
  {| gui := g; export_json := f; session_json := Missing; disk := d;
     dialogs := []; closed := false |}.



(** A persisted store that holds an earlier session's record of [P2]. *)
Definition example_store : store :=
  {[ "P2" := {| r_paper := Some {| ps_title := "Paper 2";
                                   ps_authors := "Author B";
                                   ps_year := "2025" |};
                r_excluded_from_full_text_review := Some false;
                r_exclusion_reason := Some "";
                r_responses :=
                  Some {[ "RQ1" := {[ "Category" := ["Option A"] ]} ]};
                r_toggle_states := None;
                r_mandatory_texts := None |} ]}.

(** A paper the resume scan counts as already handled: it is present in
    the store and is excluded or has a selection list that is not empty. *)
Definition processed (exported_data : store) (paper_key : string) : bool :=
  match exported_data !! paper_key with
  | None => false
  | Some paper_data =>
      default false (r_excluded_from_full_text_review paper_data)
      || negb (responses_empty (default ∅ (r_responses paper_data)))
  end.

(** The resume scenario of the specification: [P1] fully answered, [P2]
    excluded, [P3] with empty selection lists, and no session marker. *)
Definition scenario_record (excluded : bool) (selections : list string)
    : paper_record :=
  {| r_paper := None;
     r_excluded_from_full_text_review := Some excluded;
     r_exclusion_reason := Some "";
     r_responses := Some {[ "RQ1" := {[ "Category" := selections ]} ]};
     r_toggle_states := None; r_mandatory_texts := None |}.

Definition scenario_store : store :=
  {[ "P1" := scenario_record false ["Option A"];
     "P2" := scenario_record true [];
     "P3" := scenario_record false [] ]}.

Definition scenario_world : world :=
  {| gui := {| user := "Moritz"; data := example_schema;
               papers := example_papers;
               paper_keys := ["P1"; "P2"; "P3"]; current_paper_index := 0;
               selected_values := ∅; selected_Other_text := ∅;
               discussion_text_inputs := ∅; discussion_texts := ∅;
               toggle_states := ∅; toggle_texts := ∅; mandatory_texts := ∅;
               excluded_papers := ∅; excluded_reasons := ∅ |};
     export_json := Document scenario_store;
     session_json := Missing; disk := []; dialogs := []; closed := false |}.

(** *** The validator as the specification describes it *)

(** Every violation of one (question, attribute) pair, following the
    description of the specification: the three rules applied independently
    of each other, all violations collected.  The DiscussionText is the text of
    the discussion line edit, as in the code, and the rule is void when the
    line edit does not exist. *)
Definition pair_violations (g : GUI) (entry_key question_key : string)
    (by_question : gmap string (gmap string (list string)))
    (attribute : string) (options : attribute_options) : list violation :=
  let selections := get (get by_question question_key ∅) attribute [] in
  (if bool_decide (selections = [])
   then [MissingSelection question_key attribute] else [])
  ++ (if PyList.contains "Discussion needed" selections
         && from_option PyStr.blank false
              (discussion_text_inputs g
                 !! discussion_key entry_key question_key attribute)
      then [MissingDiscussionText question_key attribute] else [])
  ++ match options with
     | OptionDict _ _ (Some mandatory_text_config) =>
         if mtf_enabled mandatory_text_config
            && negb (bool_decide (selections = []))
            && PyStr.blank
                 (get (get (get (mandatory_texts g) entry_key ∅)
                           question_key ∅) attribute "")
         then [MissingMandatoryText question_key attribute
                 (default "Additional information"
                    (mtf_label mandatory_text_config))]
         else []
     | _ => []
     end.

Definition question_violations (g : GUI) (entry_key question_key : string)
    (by_question : gmap string (gmap string (list string)))
    (attributes : options_dict) : list violation :=
  concat (map (λ '(attribute, options),
                 pair_violations g entry_key question_key by_question
                                 attribute options)
              attributes).

(** The full list of violations, in the order of the question/attribute
    definition. *)
Definition all_violations (g : GUI) (entry_key : string)
    (by_question : gmap string (gmap string (list string)))
    (questions : schema) : list violation :=
  concat (map (λ '(question_key, attributes),
                 question_violations g entry_key question_key by_question
                                     attributes)
              questions).

(** The violations the validator shows: the warning of its one dialog. *)
Definition reported_violations (g : GUI) : list violation :=
  match first_violation g with
  | Ok (Some v) => [v]
  | _ => []
  end.

(** The annotator types [text] into the discussion line edit [key]: the
    line edit holds the text and its [textChanged] signal runs
    [on_discussion_text_changed], which stores it in
    [self.discussion_texts]. *)
Definition type_discussion_text (key text : string) (g : GUI) : GUI :=
  set_selections (selected_values g) (selected_Other_text g)
    (<[key := text]> (discussion_texts g))
    (set_discussion_text_inputs (<[key := text]> (discussion_text_inputs g))
       g).

(** A configuration with two attributes, for the validator: [P1] is loaded
    with the given selections and discussion line edits. *)
Definition gating_schema : schema :=
  [("RQ1", [("Category", OptionList ["Option A"; "Other"]);
            ("Method", OptionList ["Survey"; "Experiment"])])].

Definition gating_gui (excluded : bool) (category method : list string)
    (category_discussion method_discussion : string) : GUI :=
  {| user := "Moritz"; data := gating_schema; papers := example_papers;
     paper_keys := ["P1"; "P2"]; current_paper_index := 0;
     selected_values :=
       {[ "P1" := {[ "RQ1" := {[ "Category" := category;
                                 "Method" := method ]} ]} ]};
     selected_Other_text :=
       {[ "P1" := {[ "RQ1" := {[ "Category" := ""; "Method" := "" ]} ]} ]};
     discussion_text_inputs :=
       {[ "P1_RQ1_Category_discussion" := category_discussion;
          "P1_RQ1_Method_discussion" := method_discussion ]};
     discussion_texts :=
       {[ "P1_RQ1_Category_discussion" := category_discussion;
          "P1_RQ1_Method_discussion" := method_discussion ]};
     toggle_states := ∅; toggle_texts := ∅; mandatory_texts := ∅;
     excluded_papers := {[ "P1" := excluded ]}; excluded_reasons := ∅ |}.

(** Stand-ins for the two collaborators in the examples: a widget builder
    that leaves the state alone, and sanity checks that pass, report a
    violation, or raise. *)
Definition no_widgets (entry_key question_key : string)
    (attributes : options_dict) (g : GUI) : result GUI := Ok g.

Definition sanity_passes (r : paper_record) : sanity_result :=
  SanityViolations [].

Definition sanity_reports (r : paper_record) : sanity_result :=
  SanityViolations ["RQ1.Category must not be Other"].

Definition sanity_raises (r : paper_record) : sanity_result :=
  SanityRaised "sanity_checks.json not found".

(** The dialog with which a sanity-check answer blocks finishing: an
    exception, or a list of violations that is not empty. *)
Definition sanity_block (answer : sanity_result) : option dialog :=
  match answer with
  | SanityRaised message => Some (SanityCheckError message)
  | SanityViolations [] => None
  | SanityViolations violations => Some (SanityChecksFailed violations)
  end.


(** The in-memory state an operation ends in, or the exception it raises. *)
Definition loaded (r : result world) : result GUI :=
  w ← r; Ok (gui w).

(** The marker [_save_session_state] writes. *)
Definition session_marker (g : GUI) : session_data :=
  {| sd_user := Some (user g);
     sd_current_paper_index := Some (current_paper_index g);
     sd_current_paper_key := paper_keys g !! Z.to_nat (current_paper_index g) |}.

(** *** Vocabulary for the further properties *)

(** A label that the decoder reads as an ordinary selection: it starts with
    neither of the two prefixes. *)
Definition plain_label (s : string) : bool :=
  negb (PyStr.startswith "Other: " s)
  && negb (PyStr.startswith "Discussion needed: " s).

(** The selection list the decoder rebuilds for an attribute it has just
    created, and the "Other" text it leaves there. *)
Definition reloaded_selections (persisted : list string) : list string :=
  dec_selected (decode_selections fresh_attribute persisted).

Definition reloaded_Other_text (persisted : list string) : string :=
  default "" (dec_Other_text (decode_selections fresh_attribute persisted)).

(** The dictionaries the decoder rebuilds for one question of a record. *)
Definition reloaded_question (by_attribute : gmap string (list string))
    : gmap string (list string) :=
  reloaded_selections <$> by_attribute.

Definition reloaded_question_Other (by_attribute : gmap string (list string))
    : gmap string string :=
  reloaded_Other_text <$> by_attribute.

(** [d[entry_key][question_key][attribute]], when all three keys exist. *)
Definition lookup3 {V} (d : gmap string (gmap string (gmap string V)))
    (entry_key question_key attribute : string) : option V :=
  match d !! entry_key with
  | Some by_question =>
      match by_question !! question_key with
      | Some by_attribute => by_attribute !! attribute
      | None => None
      end
  | None => None
  end.

(** [d[question_key][attribute]], when both keys exist. *)
Definition lookup2 {V} (d : gmap string (gmap string V))
    (question_key attribute : string) : option V :=
  match d !! question_key with
  | Some by_attribute => by_attribute !! attribute
  | None => None
  end.

(** [P1] with an enabled toggle and a mandatory text for [RQ1]/[Category]. *)
Definition toggle_gui : GUI :=
  {| user := "Moritz"; data := example_schema; papers := example_papers;
     paper_keys := ["P1"; "P2"]; current_paper_index := 0;
     selected_values := {[ "P1" := {[ "RQ1" := {[ "Category" := ["Option A"] ]} ]} ]};
     selected_Other_text := {[ "P1" := {[ "RQ1" := {[ "Category" := "" ]} ]} ]};
     discussion_text_inputs := ∅; discussion_texts := ∅;
     toggle_states := {[ "P1" := {[ "RQ1" := {[ "Category" := true ]} ]} ]};
     toggle_texts := {[ "P1" := {[ "RQ1" := {[ "Category" := "pilot" ]} ]} ]};
     mandatory_texts := {[ "P1" := {[ "RQ1" := {[ "Category" := "n = 12" ]} ]} ]};
     excluded_papers := ∅; excluded_reasons := ∅ |}.


(** *** [get_finished_papers], [on_go_back], [export_data] *)





(** [export_data(show_box)] *)
Definition export_data (show_box : bool) (w : world) : world :=
  let w := (_perform_export w).2 in
  if show_box then show Success w else w.

(** A (question, attribute) pair that is complete: it has a selection; if
    [Discussion needed] is selected and the discussion line edit exists,
    its text is not blank; if the attribute declares an enabled mandatory
    text field, that text is not blank. *)
Definition pair_complete (g : GUI) (entry_key question_key : string)
    (by_question : gmap string (gmap string (list string)))
    (attribute : string) (options : attribute_options) : Prop :=
  let selections := get (get by_question question_key ∅) attribute [] in
  selections ≠ []
  ∧ ("Discussion needed" ∈ selections →
     ∀ text,
       discussion_text_inputs g
         !! discussion_key entry_key question_key attribute = Some text →
       PyStr.blank text = false)
  ∧ ∀ opts toggle mandatory_text_config,
      options = OptionDict opts toggle (Some mandatory_text_config) →
      mtf_enabled mandatory_text_config = true →
      PyStr.blank
        (get (get (get (mandatory_texts g) entry_key ∅) question_key ∅)
             attribute "")
      = false.

(** * Properties *)

(** ** Strings and lists *)


Lemma contains_elem_of x l : PyList.contains x l = true ↔ x ∈ l.
Proof. unfold PyList.contains. apply bool_decide_eq_true. Qed.

Lemma contains_not_elem_of x l : PyList.contains x l = false ↔ x ∉ l.
Proof. unfold PyList.contains. apply bool_decide_eq_false. Qed.

Lemma remove_app_ne x y l :
  x ≠ y → PyList.remove x (l ++ [y]) = PyList.remove x l ++ [y].
Proof.
  intros Hne. induction l as [|z l IH]; simpl.
  - destruct (decide (x = y)); congruence.
  - destruct (decide (x = z)); [done | by rewrite IH].
Qed.

Lemma elem_of_remove_ne x y l : x ∈ l → x ≠ y → x ∈ PyList.remove y l.
Proof.
  intros Hin Hne. induction l as [|z l IH]; simpl; [done |].
  apply elem_of_cons in Hin as [-> | Hin].
  - destruct (decide (y = z)); [congruence | apply list_elem_of_here].
  - destruct (decide (y = z)); [done |]. apply list_elem_of_further; auto.
Qed.

Lemma elem_of_remove x y l : x ∈ PyList.remove y l → x ∈ l.
Proof.
  induction l as [|z l IH]; simpl; [done |].
  destruct (decide (y = z)).
  - apply list_elem_of_further.
  - intros [-> | Hin]%elem_of_cons;
      [apply list_elem_of_here | apply list_elem_of_further; auto].
Qed.


(** ** The codec *)


Lemma decode_Other_entry d t :
  decode_selection d ("Other: " +:+ t)
  = {| dec_selected := dec_selected d ++ ["Other"];
       dec_Other_text := Some t;
       dec_discussion_text := dec_discussion_text d |}.
Proof. reflexivity. Qed.

Lemma decode_Discussion_entry d t :
  decode_selection d ("Discussion needed: " +:+ t)
  = {| dec_selected := dec_selected d ++ ["Discussion needed"];
       dec_Other_text :=
         match dec_Other_text d with None => Some "" | Some o => Some o end;
       dec_discussion_text := Some t |}.
Proof. reflexivity. Qed.




(** ** Traversals of dictionaries *)

Lemma dict_traverse_into_lookup {A B} (init : gmap string B)
    (f : string → A → result B) (d : gmap string A) (out : gmap string B) :
  dict_traverse_into init f d = Ok out →
  ∀ k, out !! k
       = match d !! k with
         | Some v => match f k v with Ok r => Some r | Raised _ => None end
         | None => init !! k
         end.
Proof.
  unfold dict_traverse_into. revert out.
  apply (map_fold_weak_ind
           (λ r m, ∀ out, r = Ok out →
              ∀ k, out !! k
                   = match m !! k with
                     | Some v =>
                         match f k v with Ok r => Some r | Raised _ => None end
                     | None => init !! k
                     end)).
  - intros out [= <-] k. by rewrite lookup_empty.
  - intros i x m r Hi IH out Hout k.
    destruct r as [out' | e]; simpl in Hout; [| discriminate].
    destruct (f i x) as [r' | e] eqn:Hf; simpl in Hout; [| discriminate].
    injection Hout as <-.
    destruct (decide (i = k)) as [-> | Hne].
    + by rewrite !lookup_insert_eq, Hf.
    + rewrite !lookup_insert_ne by done. by apply IH.
Qed.

Lemma dict_traverse_into_Ok {A B} (init : gmap string B)
    (f : string → A → result B) (d : gmap string A) :
  (∀ k v, d !! k = Some v → ∃ r, f k v = Ok r) →
  ∃ out, dict_traverse_into init f d = Ok out.
Proof.
  unfold dict_traverse_into.
  apply (map_fold_weak_ind
           (λ r m, (∀ k v, m !! k = Some v → ∃ r, f k v = Ok r) →
                   ∃ out, r = Ok out)).
  - eauto.
  - intros i x m r Hi IH Hall.
    destruct IH as [out ->].
    { intros k v Hk. apply (Hall k v). rewrite lookup_insert_ne; [done |].
      intros ->. congruence. }
    destruct (Hall i x) as [r' Hr']; [by rewrite lookup_insert_eq |].
    simpl. rewrite Hr'. simpl. eauto.
Qed.

Lemma dict_traverse_into_Raised {A B} (init : gmap string B)
    (f : string → A → result B) (d : gmap string A) (e : exn) :
  dict_traverse_into init f d = Raised e →
  ∃ k v, d !! k = Some v ∧ f k v = Raised e.
Proof.
  unfold dict_traverse_into.
  apply (map_fold_weak_ind
           (λ r m, r = Raised e → ∃ k v, m !! k = Some v ∧ f k v = Raised e)).
  - discriminate.
  - intros i x m r Hi IH Hr.
    destruct r as [out | e']; simpl in Hr.
    + destruct (f i x) as [r' | e'] eqn:Hf; simpl in Hr; [discriminate |].
      injection Hr as ->. exists i, x. by rewrite lookup_insert_eq.
    + injection Hr as ->. destruct IH as (k & v & Hk & Hf); [done |].
      exists k, v. split; [| done]. rewrite lookup_insert_ne; [done |].
      intros ->. congruence.
Qed.

(** ** The persisted representation *)

Lemma elem_of_remove_iff_ne x y l : x ≠ y → x ∈ PyList.remove y l ↔ x ∈ l.
Proof.
  intros Hne. split; [apply elem_of_remove |].
  intros Hin. by apply elem_of_remove_ne.
Qed.


Lemma elem_of_snoc_ne (x y : string) l : x ≠ y → x ∈ l ++ [y] ↔ x ∈ l.
Proof.
  intros Hne. rewrite elem_of_app, list_elem_of_singleton. tauto.
Qed.




(** The persisted list of an attribute is the encoding of its selection
    list in memory. *)
Lemma export_paper_responses g entry_key by_question r
    question_key by_attribute attribute persisted :
  export_paper g entry_key by_question = Ok r →
  (default ∅ (r_responses r)) !! question_key = Some by_attribute →
  by_attribute !! attribute = Some persisted →
  ∃ in_memory selections,
    by_question !! question_key = Some in_memory
    ∧ in_memory !! attribute = Some selections
    ∧ export_attribute g entry_key question_key attribute selections
      = Ok persisted.
Proof.
  unfold export_paper, export_responses.
  destruct (dict_traverse _ by_question) as [responses | e] eqn:Hr;
    simpl; [| discriminate].
  intros [= <-]. simpl. intros Hq Ha.
  pose proof (dict_traverse_into_lookup _ _ _ _ Hr question_key) as Hq'.
  rewrite Hq in Hq'.
  destruct (by_question !! question_key) as [in_memory |] eqn:Hm;
    [| by rewrite lookup_empty in Hq'].
  destruct (dict_traverse _ in_memory) as [out | e] eqn:Hout;
    [| discriminate].
  injection Hq' as ->.
  pose proof (dict_traverse_into_lookup _ _ _ _ Hout attribute) as Ha'.
  rewrite Ha in Ha'.
  destruct (in_memory !! attribute) as [selections |] eqn:Hs;
    [| by rewrite lookup_empty in Ha'].
  destruct (export_attribute g entry_key question_key attribute selections)
    as [p | e] eqn:Hp; [| discriminate].
  injection Ha' as ->. eauto.
Qed.




(** ** Merge on write *)



Lemma existing_export_Document (existing : store) :
  existing_export (Document existing) = existing.
Proof. reflexivity. Qed.

Lemma existing_export_unusable (f : file store) :
  (∀ existing, f ≠ Document existing) → existing_export f = ∅.
Proof. intros Hf. destruct f; try reflexivity. by destruct (Hf content). Qed.



(** ** The resume scan *)




(** ** The validator *)

Lemma head_app {A} (l1 l2 : list A) :
  head (l1 ++ l2) = match head l1 with Some x => Some x | None => head l2 end.
Proof. by destruct l1. Qed.

Lemma check_attribute_head g entry_key question_key by_question
    attribute options :
  check_attribute g entry_key question_key by_question attribute options
  = head (pair_violations g entry_key question_key by_question
            attribute options).
Proof.
  unfold check_attribute, pair_violations.
  destruct (bool_decide (get (get by_question question_key ∅) attribute []
                         = [])); simpl; [done |].
  destruct (PyList.contains "Discussion needed" _ && _); simpl; [done |].
  destruct options as [? | ? ? [cfg |]]; simpl; try done.
  by match goal with |- context [if ?b then _ else _] => destruct b end.
Qed.

Lemma check_question_head g entry_key question_key by_question attributes :
  check_question g entry_key question_key by_question attributes
  = head (question_violations g entry_key question_key by_question
            attributes).
Proof.
  unfold question_violations.
  induction attributes as [|[attribute options] rest IH]; simpl; [done |].
  rewrite head_app, <- check_attribute_head.
  by destruct (check_attribute _ _ _ _ _ _).
Qed.

Lemma check_questions_head g entry_key by_question questions :
  check_questions g entry_key by_question questions
  = head (all_violations g entry_key by_question questions).
Proof.
  unfold all_violations.
  induction questions as [|[question_key attributes] rest IH]; simpl;
    [done |].
  rewrite head_app, <- check_question_head.
  by destruct (check_question _ _ _ _ _).
Qed.

Lemma has_no_attribute_no_violation g entry_key by_question questions :
  has_attribute questions = false →
  all_violations g entry_key by_question questions = [].
Proof.
  unfold all_violations.
  induction questions as [|[question_key attributes] rest IH]; simpl;
    [done |].
  intros [Ha Hrest]%orb_false_elim. rewrite (IH Hrest), app_nil_r.
  apply negb_false_iff, bool_decide_eq_true in Ha. by subst.
Qed.

Lemma first_violation_head g entry_key by_question :
  index_list (paper_keys g) (current_paper_index g) = Ok entry_key →
  get (excluded_papers g) entry_key false = false →
  selected_values g !! entry_key = Some by_question →
  first_violation g
  = Ok (head (all_violations g entry_key by_question (data g))).
Proof.
  intros Hk Hex Hsv. unfold first_violation. rewrite Hk. simpl.
  rewrite Hex. destruct (has_attribute (data g)) eqn:Ha.
  - unfold getitem. rewrite Hsv. simpl. by rewrite check_questions_head.
  - by rewrite has_no_attribute_no_violation.
Qed.

(** C6 (amended) — The validator stops at the first violation: for a paper
    that is not excluded, the one warning it shows is the first entry, in
    the order of the question/attribute definition and of the rules, of the
    list of all violations present, and it returns [True] exactly when that
    list is empty. *)
Theorem validator_reports_first_violation (w : world) (entry_key : string)
    (by_question : gmap string (gmap string (list string))) :
  index_list (paper_keys (gui w)) (current_paper_index (gui w))
  = Ok entry_key →
  get (excluded_papers (gui w)) entry_key false = false →
  selected_values (gui w) !! entry_key = Some by_question →
  let violations :=
    all_violations (gui w) entry_key by_question (data (gui w)) in
  reported_violations (gui w) = take 1 violations
  ∧ validate_all_required_fields w
    = Ok match head violations with
         | Some v => (false, show (ValidationWarning v) w)
         | None => (true, w)
         end.
Proof.
  intros Hk Hex Hsv. simpl.
  unfold reported_violations, validate_all_required_fields.
  rewrite (first_violation_head _ _ _ Hk Hex Hsv). simpl.
  by destruct (all_violations _ _ _ _).
Qed.

Lemma validator_reports_first_violation_witness :
  reported_violations (gating_gui false [] [] "" "")
  = take 1 (all_violations (gating_gui false [] [] "" "") "P1"
              {[ "RQ1" := {[ "Category" := []; "Method" := [] ]} ]}
              gating_schema)
  ∧ validate_all_required_fields
      (example_world (gating_gui false [] [] "" "") Missing [])
    = Ok (false,
          show (ValidationWarning (MissingSelection "RQ1" "Category"))
               (example_world (gating_gui false [] [] "" "") Missing [])).
Proof.
  exact (validator_reports_first_violation
           (example_world (gating_gui false [] [] "" "") Missing [])
           "P1" {[ "RQ1" := {[ "Category" := []; "Method" := [] ]} ]}
           eq_refl eq_refl eq_refl).
Defined.

(** C6 — counterexample: with both attributes of the example empty, two
    violations are present and the validator reports only the first. *)
Lemma validator_stops_at_first_violation :
  all_violations (gating_gui false [] [] "" "") "P1"
    {[ "RQ1" := {[ "Category" := []; "Method" := [] ]} ]} gating_schema
  = [MissingSelection "RQ1" "Category"; MissingSelection "RQ1" "Method"]
  ∧ reported_violations (gating_gui false [] [] "" "")
    = [MissingSelection "RQ1" "Category"]
  ∧ reported_violations (gating_gui false [] [] "" "")
    ≠ all_violations (gating_gui false [] [] "" "") "P1"
        {[ "RQ1" := {[ "Category" := []; "Method" := [] ]} ]} gating_schema.
Proof.
  split; [vm_compute; reflexivity |]. split; [vm_compute; reflexivity |].
  vm_compute. discriminate.
Qed.

Lemma elem_of_concat_map {A B} (f : A → list B) (l : list A) (x : A) (y : B) :
  x ∈ l → y ∈ f x → y ∈ concat (map f l).
Proof.
  intros Hx Hy. induction l as [|z l IH]; simpl.
  - by apply elem_of_nil in Hx.
  - apply elem_of_app. apply elem_of_cons in Hx as [<- | Hx]; auto.
Qed.

Lemma elem_of_concat_map_inv {A B} (f : A → list B) (l : list A) (y : B) :
  y ∈ concat (map f l) → ∃ x, x ∈ l ∧ y ∈ f x.
Proof.
  induction l as [|z l IH]; simpl.
  - by intros ?%elem_of_nil.
  - intros [Hy | Hy]%elem_of_app.
    + exists z. split; [apply list_elem_of_here | done].
    + destruct (IH Hy) as (x & Hx & Hfx). exists x.
      split; [by apply list_elem_of_further | done].
Qed.

Lemma elem_of_all_violations g entry_key by_question questions
    question_key attributes attribute options v :
  (question_key, attributes) ∈ questions →
  (attribute, options) ∈ attributes →
  v ∈ pair_violations g entry_key question_key by_question attribute options →
  v ∈ all_violations g entry_key by_question questions.
Proof.
  intros Hq Ha Hv. unfold all_violations.
  apply (elem_of_concat_map _ _ (question_key, attributes)); [done |].
  unfold question_violations.
  by apply (elem_of_concat_map _ _ (attribute, options)).
Qed.

Lemma elem_of_all_violations_inv g entry_key by_question questions v :
  v ∈ all_violations g entry_key by_question questions →
  ∃ question_key attributes attribute options,
    (question_key, attributes) ∈ questions
    ∧ (attribute, options) ∈ attributes
    ∧ v ∈ pair_violations g entry_key question_key by_question
            attribute options.
Proof.
  unfold all_violations.
  intros ([question_key attributes] & Hq & Hv)%elem_of_concat_map_inv.
  unfold question_violations in Hv.
  apply elem_of_concat_map_inv in Hv as ([attribute options] & Ha & Hv).
  by exists question_key, attributes, attribute, options.
Qed.

Lemma head_is_Some_elem_of {A} (l : list A) (x : A) :
  x ∈ l → ∃ y, head l = Some y.
Proof. destruct l; [by intros ?%elem_of_nil | eauto]. Qed.

(** When the validator shows a warning, [finish_paper] stops there: nothing
    is exported and no other paper is loaded. *)
Lemma finish_paper_blocked_by_validator create_question_tab validate_paper
    w entry_key v :
  index_list (paper_keys (gui w)) (current_paper_index (gui w))
  = Ok entry_key →
  get (excluded_papers (gui w)) entry_key false = false →
  first_violation (gui w) = Ok (Some v) →
  finish_paper create_question_tab validate_paper w
  = Ok (show (ValidationWarning v) w).
Proof.
  intros Hk Hex Hv. unfold finish_paper, validate_all_required_fields.
  rewrite Hk. simpl. rewrite Hex, Hv. reflexivity.
Qed.

(** C3 (amended) — Completeness gating: for a paper that is not excluded,
    an attribute of the definition with an empty selection list is a
    MissingSelection violation among the violations present; validation
    then fails with the first violation present, and [finish_paper] only
    shows that warning (no export, no other paper loaded).  For an excluded
    paper validation shows nothing and [finish_paper] goes straight to
    loading the next paper. *)
Theorem completeness_gating
    (create_question_tab : string → string → options_dict → GUI → result GUI)
    (validate_paper : paper_record → sanity_result)
    (w : world) (entry_key : string) :
  index_list (paper_keys (gui w)) (current_paper_index (gui w))
  = Ok entry_key →
  (get (excluded_papers (gui w)) entry_key false = true →
   validate_all_required_fields w = Ok (true, w)
   ∧ reported_violations (gui w) = []
   ∧ finish_paper create_question_tab validate_paper w
     = load_paper create_question_tab
         (current_paper_index (gui w) + 1) w)
  ∧ (get (excluded_papers (gui w)) entry_key false = false →
     ∀ by_question question_key attributes attribute options,
       selected_values (gui w) !! entry_key = Some by_question →
       (question_key, attributes) ∈ data (gui w) →
       (attribute, options) ∈ attributes →
       get (get by_question question_key ∅) attribute [] = [] →
       MissingSelection question_key attribute
         ∈ all_violations (gui w) entry_key by_question (data (gui w))
       ∧ ∃ v,
           head (all_violations (gui w) entry_key by_question (data (gui w)))
           = Some v
           ∧ validate_all_required_fields w
             = Ok (false, show (ValidationWarning v) w)
           ∧ finish_paper create_question_tab validate_paper w
             = Ok (show (ValidationWarning v) w)).
Proof.
  intros Hk. split.
  - intros Hex.
    assert (first_violation (gui w) = Ok None) as Hv.
    { unfold first_violation. rewrite Hk. simpl. by rewrite Hex. }
    unfold validate_all_required_fields, reported_violations, finish_paper.
    rewrite Hv, Hk. simpl. by rewrite Hex.
  - intros Hex by_question question_key attributes attribute options
      Hsv Hq Ha Hempty.
    assert (MissingSelection question_key attribute
              ∈ all_violations (gui w) entry_key by_question (data (gui w)))
      as Hin.
    { apply (elem_of_all_violations _ _ _ _ _ _ _ _ _ Hq Ha).
      unfold pair_violations. rewrite Hempty. simpl. apply list_elem_of_here. }
    split; [done |].
    destruct (head_is_Some_elem_of _ _ Hin) as [v Hv]. exists v.
    pose proof (first_violation_head _ _ _ Hk Hex Hsv) as Hfirst.
    rewrite Hv in Hfirst. split; [done |]. split.
    + unfold validate_all_required_fields. by rewrite Hfirst.
    + by apply finish_paper_blocked_by_validator with entry_key.
Qed.

Lemma completeness_gating_witness :
  MissingSelection "RQ1" "Method"
    ∈ all_violations (gating_gui false ["Discussion needed"] [] "" "") "P1"
        {[ "RQ1" := {[ "Category" := ["Discussion needed"];
                       "Method" := [] ]} ]} gating_schema
  ∧ ∃ v,
      head (all_violations (gating_gui false ["Discussion needed"] [] "" "")
              "P1"
              {[ "RQ1" := {[ "Category" := ["Discussion needed"];
                             "Method" := [] ]} ]} gating_schema)
      = Some v
      ∧ validate_all_required_fields
          (example_world (gating_gui false ["Discussion needed"] [] "" "")
                         Missing [])
        = Ok (false,
              show (ValidationWarning v)
                (example_world
                   (gating_gui false ["Discussion needed"] [] "" "")
                   Missing []))
      ∧ finish_paper no_widgets sanity_passes
          (example_world (gating_gui false ["Discussion needed"] [] "" "")
                         Missing [])
        = Ok (show (ValidationWarning v)
                (example_world
                   (gating_gui false ["Discussion needed"] [] "" "")
                   Missing [])).
Proof.
  refine (proj2 (completeness_gating no_widgets sanity_passes
                   (example_world
                      (gating_gui false ["Discussion needed"] [] "" "")
                      Missing [])
                   "P1" eq_refl)
            eq_refl
            {[ "RQ1" := {[ "Category" := ["Discussion needed"];
                           "Method" := [] ]} ]}
            "RQ1"
            [("Category", OptionList ["Option A"; "Other"]);
             ("Method", OptionList ["Survey"; "Experiment"])]
            "Method" (OptionList ["Survey"; "Experiment"])
            eq_refl _ _ eq_refl).
  - apply list_elem_of_here.
  - apply list_elem_of_further, list_elem_of_here.
Defined.

(** C3 — counterexample: [Method] has an empty selection list and the paper
    is not excluded, but the one warning of the validator is the discussion
    text of [Category]; no MissingSelection is reported. *)
Lemma empty_attribute_not_reported :
  get (get (get (selected_values
                   (gating_gui false ["Discussion needed"] [] "" ""))
                "P1" ∅) "RQ1" ∅) "Method" [] = []
  ∧ get (excluded_papers (gating_gui false ["Discussion needed"] [] "" ""))
        "P1" false = false
  ∧ reported_violations (gating_gui false ["Discussion needed"] [] "" "")
    = [MissingDiscussionText "RQ1" "Category"]
  ∧ ¬ (MissingSelection "RQ1" "Method"
         ∈ reported_violations
             (gating_gui false ["Discussion needed"] [] "" "")).
Proof.
  split; [vm_compute; reflexivity |]. split; [vm_compute; reflexivity |].
  assert (reported_violations
            (gating_gui false ["Discussion needed"] [] "" "")
          = [MissingDiscussionText "RQ1" "Category"]) as ->
    by (vm_compute; reflexivity).
  split; [done |].
  intros [= ]%list_elem_of_singleton.
Qed.

Lemma elem_of_pair_violations_discussion g entry_key question_key by_question
    attribute options q a :
  MissingDiscussionText q a
    ∈ pair_violations g entry_key question_key by_question attribute options
  ↔ q = question_key ∧ a = attribute
    ∧ PyList.contains "Discussion needed"
        (get (get by_question question_key ∅) attribute [])
      && from_option PyStr.blank false
           (discussion_text_inputs g
              !! discussion_key entry_key question_key attribute)
      = true.
Proof.
  unfold pair_violations. rewrite !elem_of_app. split.
  - intros [H | [H | H]].
    + destruct (bool_decide _); [| by apply elem_of_nil in H].
      by apply list_elem_of_singleton in H.
    + destruct (PyList.contains _ _ && _); [| by apply elem_of_nil in H].
      apply list_elem_of_singleton in H. by injection H as -> ->.
    + destruct options as [? | ? ? [cfg |]];
        try (by apply elem_of_nil in H).
      match type of H with
      | context [if ?b then _ else _] => destruct b
      end; [| by apply elem_of_nil in H].
      by apply list_elem_of_singleton in H.
  - intros (-> & -> & ->). right; left. apply list_elem_of_here.
Qed.

Lemma pair_violations_type_other_key g entry_key key text question_key
    by_question attribute options :
  discussion_key entry_key question_key attribute ≠ key →
  pair_violations (type_discussion_text key text g) entry_key question_key
                  by_question attribute options
  = pair_violations g entry_key question_key by_question attribute options.
Proof.
  intros Hne. unfold pair_violations, type_discussion_text. simpl.
  by rewrite lookup_insert_ne.
Qed.

(** C8 (amended) — Discussion text requirement: for a paper that is not
    excluded and a pair of the definition whose selection list holds
    [Discussion needed], when the discussion line edit exists and its text
    is empty after trimming, MissingDiscussionText for that pair is among
    the violations present and validation fails with the first violation
    present.  After the annotator types a text that is not blank into that
    line edit, no MissingDiscussionText for the pair remains, and the
    violations of every pair that has a different discussion line edit are
    what they were. *)
Theorem discussion_text_requirement (w : world) (entry_key : string)
    (by_question : gmap string (gmap string (list string)))
    (question_key : string) (attributes : options_dict)
    (attribute : string) (options : attribute_options) (text : string) :
  index_list (paper_keys (gui w)) (current_paper_index (gui w))
  = Ok entry_key →
  get (excluded_papers (gui w)) entry_key false = false →
  selected_values (gui w) !! entry_key = Some by_question →
  (question_key, attributes) ∈ data (gui w) →
  (attribute, options) ∈ attributes →
  "Discussion needed" ∈ get (get by_question question_key ∅) attribute [] →
  discussion_text_inputs (gui w)
    !! discussion_key entry_key question_key attribute = Some text →
  PyStr.blank text = true →
  (MissingDiscussionText question_key attribute
     ∈ all_violations (gui w) entry_key by_question (data (gui w))
   ∧ ∃ v,
       head (all_violations (gui w) entry_key by_question (data (gui w)))
       = Some v
       ∧ validate_all_required_fields w
         = Ok (false, show (ValidationWarning v) w))
  ∧ ∀ supplied,
      PyStr.blank supplied = false →
      let g' :=
        type_discussion_text
          (discussion_key entry_key question_key attribute) supplied
          (gui w) in
      (MissingDiscussionText question_key attribute
         ∉ all_violations g' entry_key by_question (data (gui w)))
      ∧ ∀ q a o,
          discussion_key entry_key q a
          ≠ discussion_key entry_key question_key attribute →
          pair_violations g' entry_key q by_question a o
          = pair_violations (gui w) entry_key q by_question a o.
Proof.
  intros Hk Hex Hsv Hq Ha Hin Hinput Hblank. split.
  - assert (MissingDiscussionText question_key attribute
              ∈ all_violations (gui w) entry_key by_question (data (gui w)))
      as Hv.
    { apply (elem_of_all_violations _ _ _ _ _ _ _ _ _ Hq Ha).
      apply elem_of_pair_violations_discussion.
      split; [done |]. split; [done |].
      apply contains_elem_of in Hin. rewrite Hin, Hinput. simpl. done. }
    split; [done |].
    destruct (head_is_Some_elem_of _ _ Hv) as [v Hhead]. exists v.
    split; [done |].
    unfold validate_all_required_fields.
    by rewrite (first_violation_head _ _ _ Hk Hex Hsv), Hhead.
  - intros supplied Hsupplied g'. split.
    + intros (q & attrs & a & o & _ & _ & Hv)%elem_of_all_violations_inv.
      apply elem_of_pair_violations_discussion in Hv as (-> & -> & Hc).
      unfold g', type_discussion_text in Hc. simpl in Hc.
      rewrite lookup_insert_eq in Hc. simpl in Hc.
      rewrite Hsupplied in Hc. by rewrite andb_false_r in Hc.
    + intros q a o Hne. by apply pair_violations_type_other_key.
Qed.

Lemma discussion_text_requirement_witness :
  (MissingDiscussionText "RQ1" "Category"
     ∈ all_violations (gating_gui false ["Discussion needed"] ["Survey"]
                         "  " "")
         "P1"
         {[ "RQ1" := {[ "Category" := ["Discussion needed"];
                        "Method" := ["Survey"] ]} ]} gating_schema
   ∧ ∃ v,
       head (all_violations
               (gating_gui false ["Discussion needed"] ["Survey"] "  " "")
               "P1"
               {[ "RQ1" := {[ "Category" := ["Discussion needed"];
                              "Method" := ["Survey"] ]} ]} gating_schema)
       = Some v
       ∧ validate_all_required_fields
           (example_world
              (gating_gui false ["Discussion needed"] ["Survey"] "  " "")
              Missing [])
         = Ok (false,
               show (ValidationWarning v)
                 (example_world
                    (gating_gui false ["Discussion needed"] ["Survey"]
                       "  " "")
                    Missing [])))
  ∧ ∀ supplied,
      PyStr.blank supplied = false →
      (MissingDiscussionText "RQ1" "Category"
         ∉ all_violations
             (type_discussion_text (discussion_key "P1" "RQ1" "Category")
                supplied
                (gating_gui false ["Discussion needed"] ["Survey"] "  " ""))
             "P1"
             {[ "RQ1" := {[ "Category" := ["Discussion needed"];
                            "Method" := ["Survey"] ]} ]} gating_schema)
      ∧ ∀ q a o,
          discussion_key "P1" q a ≠ discussion_key "P1" "RQ1" "Category" →
          pair_violations
            (type_discussion_text (discussion_key "P1" "RQ1" "Category")
               supplied
               (gating_gui false ["Discussion needed"] ["Survey"] "  " ""))
            "P1" q
            {[ "RQ1" := {[ "Category" := ["Discussion needed"];
                           "Method" := ["Survey"] ]} ]} a o
          = pair_violations
              (gating_gui false ["Discussion needed"] ["Survey"] "  " "")
              "P1" q
              {[ "RQ1" := {[ "Category" := ["Discussion needed"];
                             "Method" := ["Survey"] ]} ]} a o.
Proof.
  refine (discussion_text_requirement
            (example_world
               (gating_gui false ["Discussion needed"] ["Survey"] "  " "")
               Missing [])
            "P1"
            {[ "RQ1" := {[ "Category" := ["Discussion needed"];
                           "Method" := ["Survey"] ]} ]}
            "RQ1"
            [("Category", OptionList ["Option A"; "Other"]);
             ("Method", OptionList ["Survey"; "Experiment"])]
            "Category" (OptionList ["Option A"; "Other"]) "  "
            eq_refl eq_refl eq_refl _ _ _ eq_refl eq_refl).
  - apply list_elem_of_here.
  - apply list_elem_of_here.
  - apply (bool_decide_unpack _). vm_compute. exact I.
Defined.

(** C8 — counterexample: [Method] holds [Discussion needed] with an empty
    discussion text, but [Category], which comes first, has no selection:
    the validator reports only that, and no MissingDiscussionText. *)
Lemma missing_discussion_text_not_reported :
  "Discussion needed"
    ∈ get (get (get (selected_values
                       (gating_gui false [] ["Discussion needed"] "" ""))
                    "P1" ∅) "RQ1" ∅) "Method" []
  ∧ discussion_text_inputs (gating_gui false [] ["Discussion needed"] "" "")
      !! discussion_key "P1" "RQ1" "Method" = Some ""
  ∧ reported_violations (gating_gui false [] ["Discussion needed"] "" "")
    = [MissingSelection "RQ1" "Category"]
  ∧ ¬ (MissingDiscussionText "RQ1" "Method"
         ∈ reported_violations
             (gating_gui false [] ["Discussion needed"] "" "")).
Proof.
  split; [apply (bool_decide_unpack _); vm_compute; exact I |].
  split; [vm_compute; reflexivity |].
  assert (reported_violations
            (gating_gui false [] ["Discussion needed"] "" "")
          = [MissingSelection "RQ1" "Category"]) as ->
    by (vm_compute; reflexivity).
  split; [done |].
  intros [= ]%list_elem_of_singleton.
Qed.

(** ** Export failures *)

Lemma perform_export_gui w :
  gui (_perform_export w).2 = gui w
  ∧ closed (_perform_export w).2 = closed w
  ∧ session_json (_perform_export w).2 = session_json w.
Proof.
  unfold _perform_export.
  destruct (export_output (gui w) (export_json w)); [| done].
  by destruct (next_write w).
Qed.




(** ** Sanity checks *)

(** C9 — The sanity checks fail closed: when a paper that is not excluded
    passes the validator, and the sanity-check collaborator, given the
    record just exported, raises or returns a list of violations that is
    not empty, [finish_paper] ends after showing that error: the in-memory
    state, and with it the current paper index, is what it was, and the
    window stays open. *)
Theorem sanity_check_fails_closed
    (create_question_tab : string → string → options_dict → GUI → result GUI)
    (validate_paper : paper_record → sanity_result)
    (w : world) (entry_key : string) (d : dialog) :
  index_list (paper_keys (gui w)) (current_paper_index (gui w))
  = Ok entry_key →
  get (excluded_papers (gui w)) entry_key false = false →
  first_violation (gui w) = Ok None →
  sanity_block
    (validate_paper
       (exported_entry (export_json (_perform_export w).2) entry_key))
  = Some d →
  finish_paper create_question_tab validate_paper w
  = Ok (show d (_perform_export w).2)
  ∧ gui (show d (_perform_export w).2) = gui w
  ∧ current_paper_index (gui (show d (_perform_export w).2))
    = current_paper_index (gui w)
  ∧ closed (show d (_perform_export w).2) = closed w.
Proof.
  intros Hk Hex Hv Hd.
  destruct (perform_export_gui w) as (Hg & Hc & _).
  split; [| simpl; by rewrite Hg, Hc].
  unfold finish_paper, validate_all_required_fields.
  rewrite Hk. simpl. rewrite Hex, Hv. simpl.
  destruct (validate_paper _) as [message | [| v violations]];
    simpl in Hd; by simplify_eq.
Qed.

Lemma sanity_check_fails_closed_witness :
  finish_paper no_widgets sanity_raises
    (example_world (example_gui 0 ["Option A"] "" "") Missing [])
  = Ok (show (SanityCheckError "sanity_checks.json not found")
          (_perform_export
             (example_world (example_gui 0 ["Option A"] "" "") Missing [])).2)
  ∧ gui (show (SanityCheckError "sanity_checks.json not found")
           (_perform_export
              (example_world (example_gui 0 ["Option A"] "" "")
                             Missing [])).2)
    = example_gui 0 ["Option A"] "" ""
  ∧ current_paper_index
      (gui (show (SanityCheckError "sanity_checks.json not found")
              (_perform_export
                 (example_world (example_gui 0 ["Option A"] "" "")
                                Missing [])).2))
    = 0
  ∧ closed (show (SanityCheckError "sanity_checks.json not found")
              (_perform_export
                 (example_world (example_gui 0 ["Option A"] "" "")
                                Missing [])).2)
    = false.
Proof.
  exact (sanity_check_fails_closed no_widgets sanity_raises
           (example_world (example_gui 0 ["Option A"] "" "") Missing [])
           "P1" (SanityCheckError "sanity_checks.json not found")
           eq_refl eq_refl eq_refl eq_refl).
Defined.

(** ** The session marker *)

Lemma index_list_in_range {A} (l : list A) (i : Z) :
  0 ≤ i < Z.of_nat (length l) →
  ∃ x, l !! Z.to_nat i = Some x ∧ index_list l i = Ok x.
Proof.
  intros Hi. unfold index_list.
  destruct (i <? 0) eqn:Hneg; [lia |].
  destruct (i <? 0); [done |].
  destruct (Z.of_nat (length l) <=? i) eqn:Hge; [lia |]. simpl.
  destruct (l !! Z.to_nat i) as [x |] eqn:Hx; [eauto |].
  apply lookup_ge_None in Hx. lia.
Qed.

Lemma save_session_state_Ok w :
  0 ≤ current_paper_index (gui w) →
  _save_session_state w
  = Ok (set_session_json
          (dump_json (session_json w) (session_marker (gui w))
                     (next_write w)).2
          (consume_write w)).
Proof.
  intros Hi. unfold _save_session_state, session_marker.
  destruct (current_paper_index (gui w)
            <? Z.of_nat (length (paper_keys (gui w)))) eqn:Hlt.
  - destruct (index_list_in_range (paper_keys (gui w))
                (current_paper_index (gui w))) as (k & Hk & ->); [lia |].
    simpl. rewrite Hk. by destruct (next_write w).
  - simpl. rewrite (proj2 (lookup_ge_None _ _)) by lia.
    by destruct (next_write w).
Qed.

(** The state [_save_session_state] ends in does not depend on the files
    or on the answers of the environment. *)
Lemma loaded_save_session_state w1 w2 :
  gui w1 = gui w2 →
  loaded (_save_session_state w1) = loaded (_save_session_state w2)
  ∧ ∀ w', _save_session_state w1 = Ok w' →
          gui w' = gui w1 ∧ closed w' = closed w1.
Proof.
  intros Hg. unfold _save_session_state. rewrite Hg.
  destruct (if current_paper_index (gui w2)
               <? Z.of_nat (length (paper_keys (gui w2)))
            then _ else _) as [k | e]; simpl; [| done].
  destruct (next_write w1), (next_write w2); simpl; rewrite ?Hg;
    (split; [done |]); by intros w' [= <-].
Qed.

Lemma loaded_close w1 w2 :
  gui w1 = gui w2 →
  loaded (close w1) = loaded (close w2).
Proof.
  intros Hg. unfold close, closeEvent.
  destruct (perform_export_gui w1) as (Hg1 & _).
  destruct (perform_export_gui w2) as (Hg2 & _).
  destruct (loaded_save_session_state (_perform_export w1).2
              (_perform_export w2).2) as [Heq _]; [congruence |].
  unfold loaded in *.
  destruct (_save_session_state (_perform_export w1).2),
    (_save_session_state (_perform_export w2).2); simpl in *; congruence.
Qed.

(** C10 — Session-marker writes are best effort: [_save_session_state]
    returns normally whatever the write does, the marker it writes holds
    the user, the current paper index and the current paper key (null when
    the index is not below the length of the list), and a failed write
    leaves the state alone; consequently the state [load_paper] ends in
    does not depend on how the writes go, and [on_exit] always closes the
    window. *)
Theorem session_marker_is_best_effort
    (create_question_tab : string → string → options_dict → GUI → result GUI)
    (w : world) :
  0 ≤ current_paper_index (gui w) →
  (∃ f,
     _save_session_state w = Ok (set_session_json f (consume_write w))
     ∧ (next_write w = WriteOk → f = Document (session_marker (gui w)))
     ∧ (next_write w = OpenFails → f = session_json w)
     ∧ (next_write w = DumpFails → f = Truncated))
  ∧ (Z.of_nat (length (paper_keys (gui w))) ≤ current_paper_index (gui w) →
     sd_current_paper_key (session_marker (gui w)) = None)
  ∧ (∀ index d,
       loaded (load_paper create_question_tab index (set_disk d w))
       = loaded (load_paper create_question_tab index w))
  ∧ (∃ w', on_exit w = Ok w' ∧ closed w' = true ∧ gui w' = gui w).
Proof.
  intros Hi. split; [| split; [| split]].
  - eexists. split; [by apply save_session_state_Ok |].
    repeat split; by intros ->.
  - intros Hge. simpl. apply lookup_ge_None. lia.
  - intros index d. unfold load_paper. simpl.
    destruct (Z.of_nat (length (paper_keys (gui w))) <=? index).
    + by apply loaded_close.
    + destruct (index_list _ index) as [entry_key | e]; [| done]. simpl.
      destruct (getitem _ entry_key) as [info | e]; [| done]. simpl.
      destruct (create_question_tabs _ _ _ _) as [g | e]; [| done]. simpl.
      by apply loaded_save_session_state.
  - unfold on_exit, close, closeEvent.
    destruct (perform_export_gui w) as (Hg1 & _).
    rewrite save_session_state_Ok by (by rewrite Hg1). simpl.
    set (w1 := set_session_json _ _).
    assert (gui w1 = gui w) as Hgw1 by (unfold w1; simpl; congruence).
    destruct (perform_export_gui w1) as (Hg2 & _).
    rewrite save_session_state_Ok by (by rewrite Hg2, Hgw1). simpl.
    eexists. split; [reflexivity |]. split; [done |]. simpl. congruence.
Qed.

Lemma session_marker_is_best_effort_witness :
  (∃ f,
     _save_session_state
       (example_world (example_gui 1 [] "" "") Missing [OpenFails])
     = Ok (set_session_json f
             (consume_write
                (example_world (example_gui 1 [] "" "") Missing
                               [OpenFails])))
     ∧ (OpenFails = WriteOk →
        f = Document (session_marker (example_gui 1 [] "" "")))
     ∧ (OpenFails = OpenFails → f = Missing)
     ∧ (OpenFails = DumpFails → f = Truncated))
  ∧ (2 ≤ 1 → Some "P2" = None)
  ∧ (∀ index d,
       loaded (load_paper no_widgets index
                 (set_disk d
                    (example_world (example_gui 1 [] "" "") Missing
                                   [OpenFails])))
       = loaded (load_paper no_widgets index
                   (example_world (example_gui 1 [] "" "") Missing
                                  [OpenFails])))
  ∧ (∃ w',
       on_exit (example_world (example_gui 1 [] "" "") Missing [OpenFails])
       = Ok w'
       ∧ closed w' = true ∧ gui w' = example_gui 1 [] "" "").
Proof.
  apply (session_marker_is_best_effort no_widgets
           (example_world (example_gui 1 [] "" "") Missing [OpenFails])).
  vm_compute. discriminate.
Defined.

(** ** The scenario of the specification, end to end

    [Other] is selected for [P1]/[RQ1]/[Category] with the text [ad-hoc];
    the export writes [["Other: ad-hoc"]], and a later session that loads
    [P1] from that file reconstructs the selection [["Other"]] with the
    OtherText [ad-hoc]. *)

Example scenario_export :
  ∃ written r,
    export_json
      (_perform_export
         (example_world (example_gui 0 ["Other"] "ad-hoc" "") Missing [])).2
    = Document written
    ∧ written !! "P1" = Some r
    ∧ r_responses r = Some {[ "RQ1" := {[ "Category" := ["Other: ad-hoc"] ]} ]}.
Proof. do 2 eexists. vm_compute. repeat split; reflexivity. Qed.

Example scenario_reload :
  let exported :=
    export_json
      (_perform_export
         (example_world (example_gui 0 ["Other"] "ad-hoc" "") Missing [])).2 in
  let g := init_tracking "P1" exported (gui scenario_world) in
  selected_values g = {[ "P1" := {[ "RQ1" := {[ "Category" := ["Other"] ]} ]} ]}
  ∧ selected_Other_text g
    = {[ "P1" := {[ "RQ1" := {[ "Category" := "ad-hoc" ]} ]} ]}.
Proof. vm_compute. split; reflexivity. Qed.

(** * Further properties of the code *)

(** ** The codec on whole selection lists *)

Lemma decode_plain_label d s :
  plain_label s = true →
  decode_selection d s
  = {| dec_selected := dec_selected d ++ [s];
       dec_Other_text := dec_Other_text d;
       dec_discussion_text := dec_discussion_text d |}.
Proof.
  unfold plain_label, decode_selection.
  intros [Ho Hd]%andb_true_iff.
  apply negb_true_iff in Ho, Hd. by rewrite Ho, Hd.
Qed.

Lemma decode_plain_list l :
  Forall (λ s, plain_label s = true) l →
  ∀ d, decode_selections d l
       = {| dec_selected := dec_selected d ++ l;
            dec_Other_text := dec_Other_text d;
            dec_discussion_text := dec_discussion_text d |}.
Proof.
  induction 1 as [|s l Hs Hl IH]; intros d.
  - simpl. rewrite app_nil_r. by destruct d.
  - change (decode_selections d (s :: l))
      with (decode_selections (decode_selection d s) l).
    rewrite IH, decode_plain_label by done. simpl.
    by rewrite <- app_assoc.
Qed.

Lemma Forall_remove (P : string → Prop) x l :
  Forall P l → Forall P (PyList.remove x l).
Proof.
  induction 1 as [|y l Hy Hl IH]; simpl; [constructor |].
  destruct (decide (x = y)); [done | by constructor].
Qed.

Lemma remove_Permutation x l : x ∈ l → PyList.remove x l ++ [x] ≡ₚ l.
Proof.
  induction l as [|y l IH]; simpl; [by intros ?%elem_of_nil |].
  destruct (decide (x = y)) as [-> | Hne].
  - intros _. by rewrite Permutation_app_comm.
  - intros [-> | Hin]%elem_of_cons; [done |]. simpl. by rewrite IH.
Qed.

Lemma length_remove x l : x ∈ l → S (length (PyList.remove x l)) = length l.
Proof.
  induction l as [|y l IH]; simpl; [by intros ?%elem_of_nil |].
  destruct (decide (x = y)) as [-> | Hne]; [done |].
  intros [-> | Hin]%elem_of_cons; [done |]. simpl. by rewrite IH.
Qed.

(** The four shapes of an encoded list. *)
Lemma encode_selections_shape selections Other_text tracked input :
  let fold_Other :=
    PyList.contains "Other" selections && PyStr.truthy Other_text in
  let fold_Discussion :=
    PyList.contains "Discussion needed" selections
    && option_truthy (export_discussion_text tracked input) in
  let t := default "" (export_discussion_text tracked input) in
  encode_selections selections (Ok Other_text) tracked input
  = Ok ((if fold_Discussion
         then PyList.remove "Discussion needed"
         else id)
          ((if fold_Other then PyList.remove "Other" else id) selections)
        ++ (if fold_Other then ["Other: " +:+ Other_text] else [])
        ++ (if fold_Discussion then ["Discussion needed: " +:+ t] else [])).
Proof.
  simpl. unfold encode_selections, encode_Other.
  destruct (PyList.contains "Other" selections) eqn:Ho; simpl.
  - destruct (PyStr.truthy Other_text) eqn:Ht; simpl.
    + f_equal. unfold encode_Discussion, PyList.append.
      assert (PyList.contains "Discussion needed"
                (PyList.remove "Other" selections ++ ["Other: " +:+ Other_text])
              = PyList.contains "Discussion needed" selections) as ->.
      { unfold PyList.contains. apply bool_decide_ext.
        rewrite elem_of_snoc_ne by (by destruct Other_text).
        by apply elem_of_remove_iff_ne. }
      destruct (PyList.contains "Discussion needed" selections); simpl;
        [| done].
      destruct (export_discussion_text tracked input) as [t |]; simpl;
        [| done].
      destruct (PyStr.truthy t); simpl; [| done].
      rewrite remove_app_ne by (by destruct Other_text).
      by rewrite <- app_assoc.
    + f_equal. unfold encode_Discussion, PyList.append.
      destruct (PyList.contains "Discussion needed" selections); simpl;
        [| by rewrite app_nil_r].
      destruct (export_discussion_text tracked input) as [t |]; simpl;
        [| by rewrite app_nil_r].
      destruct (PyStr.truthy t); simpl; [done | by rewrite app_nil_r].
  - f_equal. unfold encode_Discussion, PyList.append.
    destruct (PyList.contains "Discussion needed" selections); simpl;
      [| by rewrite app_nil_r].
    destruct (export_discussion_text tracked input) as [t |]; simpl;
      [| by rewrite app_nil_r].
    destruct (PyStr.truthy t); simpl; [done | by rewrite app_nil_r].
Qed.

Lemma decode_selections_app d l1 l2 :
  decode_selections d (l1 ++ l2)
  = decode_selections (decode_selections d l1) l2.
Proof. unfold decode_selections. by rewrite fold_left_app. Qed.

Lemma decode_encoded_shape l (fold_Other fold_Discussion : bool) o t :
  Forall (λ s, plain_label s = true) l →
  decode_selections fresh_attribute
    (l ++ (if fold_Other then ["Other: " +:+ o] else [])
       ++ (if fold_Discussion then ["Discussion needed: " +:+ t] else []))
  = {| dec_selected :=
         l ++ (if fold_Other then ["Other"] else [])
           ++ (if fold_Discussion then ["Discussion needed"] else []);
       dec_Other_text := Some (if fold_Other then o else "");
       dec_discussion_text := if fold_Discussion then Some t else None |}.
Proof.
  intros Hplain. rewrite decode_selections_app, (decode_plain_list l Hplain).
  destruct fold_Other, fold_Discussion; simpl;
    rewrite ?decode_Other_entry, ?decode_Discussion_entry; simpl;
    rewrite ?app_nil_r, <- ?app_assoc; reflexivity.
Qed.

Lemma folded_selections (fold_Other fold_Discussion : bool) selections :
  (fold_Other = true → "Other" ∈ selections) →
  (fold_Discussion = true → "Discussion needed" ∈ selections) →
  let l := (if fold_Discussion then PyList.remove "Discussion needed" else id)
             ((if fold_Other then PyList.remove "Other" else id) selections) in
  l ++ (if fold_Other then ["Other"] else [])
    ++ (if fold_Discussion then ["Discussion needed"] else [])
  ≡ₚ selections
  ∧ ∀ (x y : string),
      length (l ++ (if fold_Other then [x] else [])
                ++ (if fold_Discussion then [y] else []))
      = length selections.
Proof.
  intros Ho Hd.
  destruct fold_Other, fold_Discussion; simpl; rewrite ?app_nil_r.
  - assert ("Discussion needed" ∈ PyList.remove "Other" selections) as Hd'
      by (apply elem_of_remove_ne; auto; discriminate).
    split.
    + rewrite <- (remove_Permutation "Other" selections) at 2 by auto.
      rewrite <- (remove_Permutation "Discussion needed"
                    (PyList.remove "Other" selections)) at 2 by done.
      rewrite <- app_assoc. simpl. f_equiv. apply perm_swap.
    + intros x y. rewrite length_app. simpl.
      rewrite <- (length_remove "Other" selections) by auto.
      rewrite <- (length_remove "Discussion needed" _ Hd'). lia.
  - split; [by apply remove_Permutation, Ho |].
    intros x _. rewrite length_app. simpl.
    rewrite <- (length_remove "Other" selections) by auto. lia.
  - split; [by apply remove_Permutation, Hd |].
    intros _ y. rewrite length_app. simpl.
    rewrite <- (length_remove "Discussion needed" selections) by auto. lia.
  - done.
Qed.

(** X1 — Round trip of a whole selection list: when no selected label
    itself starts with one of the two prefixes, the encoder succeeds, the
    persisted list is as long as the selection list, and decoding it into a
    new attribute gives back the same selections up to their order (a
    folded escape option moves to the end), the OtherText whenever [Other]
    is selected (an empty one included), and the discussion text exactly
    when one was folded in. *)
Theorem selections_roundtrip (selections : list string)
    (Other_text : string) (tracked input : option string) :
  Forall (λ s, plain_label s = true) selections →
  ∃ persisted,
    encode_selections selections (Ok Other_text) tracked input = Ok persisted
    ∧ length persisted = length selections
    ∧ reloaded_selections persisted ≡ₚ selections
    ∧ reloaded_Other_text persisted
      = (if PyList.contains "Other" selections then Other_text else "")
    ∧ dec_discussion_text (decode_selections fresh_attribute persisted)
      = (if PyList.contains "Discussion needed" selections
            && option_truthy (export_discussion_text tracked input)
         then export_discussion_text tracked input else None).
Proof.
  intros Hplain. eexists. split; [apply encode_selections_shape |].
  set (fO := PyList.contains "Other" selections && PyStr.truthy Other_text).
  set (fD := PyList.contains "Discussion needed" selections
             && option_truthy (export_discussion_text tracked input)).
  destruct (folded_selections fO fD selections) as [Hperm Hlen].
  { intros [H _]%andb_true_iff. by apply contains_elem_of. }
  { intros [H _]%andb_true_iff. by apply contains_elem_of. }
  unfold reloaded_selections, reloaded_Other_text.
  rewrite decode_encoded_shape
    by (destruct fO, fD; simpl; repeat apply Forall_remove; exact Hplain).
  simpl. split; [apply Hlen |]. split; [apply Hperm |]. split.
  - unfold fO. destruct (PyList.contains "Other" selections); simpl;
      [| done]. by destruct Other_text.
  - destruct fD eqn:HfD; [| done]. unfold fD in HfD.
    apply andb_true_iff in HfD as [_ Ht].
    by destruct (export_discussion_text tracked input).
Qed.

Lemma selections_roundtrip_witness :
  ∃ persisted,
    encode_selections ["Other"; "Option A"] (Ok "ad-hoc") None None
    = Ok persisted
    ∧ length persisted = 2%nat
    ∧ reloaded_selections persisted ≡ₚ ["Other"; "Option A"]
    ∧ reloaded_Other_text persisted = "ad-hoc"
    ∧ dec_discussion_text (decode_selections fresh_attribute persisted)
      = None.
Proof.
  apply (selections_roundtrip ["Other"; "Option A"] "ad-hoc" None None).
  repeat constructor.
Defined.

(** ** What an export writes *)

Lemma dict_traverse_into_Ok_inv {A B} (init : gmap string B)
    (f : string → A → result B) (d : gmap string A) (out : gmap string B) :
  dict_traverse_into init f d = Ok out →
  ∀ k v, d !! k = Some v → ∃ r, f k v = Ok r ∧ out !! k = Some r.
Proof.
  intros Hout k v Hk.
  pose proof (dict_traverse_into_lookup _ _ _ _ Hout k) as Hl.
  rewrite Hk in Hl.
  destruct (f k v) as [r | e] eqn:Hf; [eauto |].
  exfalso. revert Hout Hk Hf. unfold dict_traverse_into. clear Hl.
  revert out.
  apply (map_fold_weak_ind
           (λ r m, ∀ out, r = Ok out → m !! k = Some v →
                          f k v = Raised e → False)).
  - intros out _ Hm. by rewrite lookup_empty in Hm.
  - intros i x m r Hi IH out Hr Hm Hfr.
    destruct r as [o | ?]; simpl in Hr; [| discriminate].
    destruct (decide (i = k)) as [-> | Hne'].
    + rewrite lookup_insert_eq in Hm. injection Hm as ->.
      by rewrite Hfr in Hr.
    + rewrite lookup_insert_ne in Hm by done. by apply (IH o).
Qed.

Lemma perform_export_true w :
  (_perform_export w).1 = true →
  ∃ written,
    export_output (gui w) (export_json w) = Ok written
    ∧ next_write w = WriteOk
    ∧ (_perform_export w).2
      = set_export_json (Document written) (consume_write w).
Proof.
  unfold _perform_export.
  destruct (export_output (gui w) (export_json w)) as [written | e];
    [| discriminate].
  destruct (next_write w); simpl; [| discriminate..].
  intros _. by exists written.
Qed.

(** X2 — An export that succeeds writes the union of the existing store and
    the papers held in memory: no key of the existing store is dropped, no
    other key appears, and the record of every paper held in memory is the
    one freshly encoded from memory, replacing what the store had. *)
Theorem export_overlays_loaded_papers (w : world) :
  (_perform_export w).1 = true →
  ∃ written,
    export_json (_perform_export w).2 = Document written
    ∧ dom written
      = dom (existing_export (export_json w))
        ∪ dom (selected_values (gui w))
    ∧ ∀ entry_key by_question,
        selected_values (gui w) !! entry_key = Some by_question →
        ∃ r, export_paper (gui w) entry_key by_question = Ok r
             ∧ written !! entry_key = Some r.
Proof.
  intros (written & Hout & _ & ->)%perform_export_true.
  exists written. split; [done |]. unfold export_output in Hout. split.
  - apply set_eq. intros k.
    rewrite elem_of_union, !elem_of_dom.
    rewrite (dict_traverse_into_lookup _ _ _ _ Hout k).
    destruct (selected_values (gui w) !! k) as [v |] eqn:Hk.
    + destruct (dict_traverse_into_Ok_inv _ _ _ _ Hout k v Hk)
        as (r & -> & _).
      split; [by right | by eauto].
    + split; [by left |]. intros [H | H]; [done | by destruct H].
  - intros entry_key by_question Hk.
    by apply (dict_traverse_into_Ok_inv _ _ _ _ Hout).
Qed.

Lemma export_overlays_loaded_papers_witness :
  ∃ written,
    export_json
      (_perform_export
         (example_world (example_gui 0 ["Other"] "ad-hoc" "")
                        (Document example_store) [])).2
    = Document written
    ∧ dom written
      = dom (existing_export (Document example_store))
        ∪ dom (selected_values (example_gui 0 ["Other"] "ad-hoc" ""))
    ∧ ∀ entry_key by_question,
        selected_values (example_gui 0 ["Other"] "ad-hoc" "") !! entry_key
        = Some by_question →
        ∃ r, export_paper (example_gui 0 ["Other"] "ad-hoc" "")
               entry_key by_question = Ok r
             ∧ written !! entry_key = Some r.
Proof.
  apply (export_overlays_loaded_papers
           (example_world (example_gui 0 ["Other"] "ad-hoc" "")
                          (Document example_store) [])).
  vm_compute. reflexivity.
Defined.

Lemma export_output_idempotent g f written :
  export_output g f = Ok written →
  export_output g (Document written) = Ok written.
Proof.
  unfold export_output. intros Hout.
  destruct (dict_traverse_into_Ok (existing_export (Document written))
              (export_paper g) (selected_values g)) as [again Hagain].
  { intros k v Hk.
    destruct (dict_traverse_into_Ok_inv _ _ _ _ Hout k v Hk) as (r & Hr & _).
    eauto. }
  rewrite Hagain. f_equal. apply map_eq. intros k.
  rewrite (dict_traverse_into_lookup _ _ _ _ Hagain k).
  pose proof (dict_traverse_into_lookup _ _ _ _ Hout k) as Hk.
  destruct (selected_values g !! k) as [v |]; [by symmetry | done].
Qed.

(** X3 — Exporting is idempotent: a second export right after one that
    succeeded, with nothing changed in memory, succeeds as well and leaves
    the store file exactly as the first one wrote it. *)
Theorem export_is_idempotent (w : world) :
  (_perform_export w).1 = true →
  next_write (_perform_export w).2 = WriteOk →
  (_perform_export (_perform_export w).2).1 = true
  ∧ export_json (_perform_export (_perform_export w).2).2
    = export_json (_perform_export w).2.
Proof.
  intros (written & Hout & _ & ->)%perform_export_true Hw.
  unfold _perform_export. simpl.
  rewrite (export_output_idempotent _ _ _ Hout), Hw. done.
Qed.

Lemma export_is_idempotent_witness :
  (_perform_export
     (_perform_export
        (example_world (example_gui 0 ["Other"] "ad-hoc" "")
                       (Document example_store) [])).2).1 = true
  ∧ export_json
      (_perform_export
         (_perform_export
            (example_world (example_gui 0 ["Other"] "ad-hoc" "")
                           (Document example_store) [])).2).2
    = export_json
        (_perform_export
           (example_world (example_gui 0 ["Other"] "ad-hoc" "")
                          (Document example_store) [])).2.
Proof.
  apply (export_is_idempotent
           (example_world (example_gui 0 ["Other"] "ad-hoc" "")
                          (Document example_store) [])).
  - vm_compute. reflexivity.
  - vm_compute. reflexivity.
Defined.

Lemma responses_empty_true_iff
    (responses : gmap string (gmap string (list string))) :
  responses_empty responses = true
  ↔ ∀ q by_attribute a l,
      responses !! q = Some by_attribute → by_attribute !! a = Some l →
      l = [].
Proof.
  unfold responses_empty. rewrite forallb_forall. split.
  - intros H q by_attribute a l Hq Ha.
    specialize (H (q, by_attribute)). simpl in H.
    rewrite forallb_forall in H.
    specialize (H ltac:(by apply list_elem_of_In, elem_of_map_to_list)
                  (a, l)
                  ltac:(by apply list_elem_of_In, elem_of_map_to_list)).
    by apply bool_decide_eq_true in H.
  - intros H [q by_attribute] Hq%list_elem_of_In%elem_of_map_to_list.
    apply forallb_forall.
    intros [a l] Ha%list_elem_of_In%elem_of_map_to_list.
    apply bool_decide_eq_true. by apply (H q by_attribute a l).
Qed.

Lemma encode_selections_length selections Other_text tracked input persisted :
  encode_selections selections Other_text tracked input = Ok persisted →
  length persisted = length selections.
Proof.
  intros Henc.
  assert (∃ t, encode_selections selections (Ok t) tracked input
               = Ok persisted) as [t Ht].
  { unfold encode_selections, encode_Other in *.
    destruct (PyList.contains "Other" selections); [| by exists ""].
    destruct Other_text as [t | e]; [by exists t | done]. }
  rewrite encode_selections_shape in Ht. injection Ht as <-.
  apply folded_selections.
  - intros [H _]%andb_true_iff. by apply contains_elem_of.
  - intros [H _]%andb_true_iff. by apply contains_elem_of.
Qed.

Lemma export_responses_forward g entry_key by_question responses
    question_key in_memory attribute selections :
  export_responses g entry_key by_question = Ok responses →
  by_question !! question_key = Some in_memory →
  in_memory !! attribute = Some selections →
  ∃ by_attribute persisted,
    responses !! question_key = Some by_attribute
    ∧ by_attribute !! attribute = Some persisted
    ∧ export_attribute g entry_key question_key attribute selections
      = Ok persisted.
Proof.
  intros Hr Hq Ha.
  destruct (dict_traverse_into_Ok_inv _ _ _ _ Hr _ _ Hq)
    as (by_attribute & Hby & Hlq).
  destruct (dict_traverse_into_Ok_inv _ _ _ _ Hby _ _ Ha)
    as (persisted & Hp & Hla).
  by exists by_attribute, persisted.
Qed.

Lemma export_responses_empty g entry_key by_question r :
  export_paper g entry_key by_question = Ok r →
  responses_empty (default ∅ (r_responses r)) = responses_empty by_question.
Proof.
  intros Hexp.
  assert (∃ responses, export_responses g entry_key by_question
                       = Ok responses
                       ∧ r_responses r = Some responses)
    as (responses & Hr & Hrr).
  { unfold export_paper in Hexp.
    destruct (export_responses g entry_key by_question) as [rs | e];
      simpl in Hexp; [| discriminate].
    injection Hexp as <-. by exists rs. }
  apply eq_true_iff_eq. rewrite !responses_empty_true_iff. split.
  - intros H q in_memory a selections Hq Ha.
    destruct (export_responses_forward _ _ _ _ _ _ _ _ Hr Hq Ha)
      as (by_attribute & persisted & Hq' & Ha' & Henc).
    rewrite Hrr in H. simpl in H.
    specialize (H _ _ _ _ Hq' Ha'). subst persisted.
    apply encode_selections_length in Henc.
    by destruct selections.
  - intros H q by_attribute a persisted Hq Ha.
    destruct (export_paper_responses _ _ _ _ _ _ _ _ Hexp Hq Ha)
      as (in_memory & selections & Hq' & Ha' & Henc).
    specialize (H _ _ _ _ Hq' Ha'). subst selections.
    apply encode_selections_length in Henc.
    by destruct persisted.
Qed.

(** X4 — What an export means for the next start: in the store written by
    a successful export, a paper held in memory counts as processed for the
    resume scan exactly when it is excluded or at least one of its
    selection lists in memory is not empty. *)
Theorem exported_paper_is_processed (w : world) (entry_key : string)
    (by_question : gmap string (gmap string (list string))) :
  (_perform_export w).1 = true →
  selected_values (gui w) !! entry_key = Some by_question →
  ∃ written,
    export_json (_perform_export w).2 = Document written
    ∧ processed written entry_key
      = get (excluded_papers (gui w)) entry_key false
        || negb (responses_empty by_question).
Proof.
  intros (written & Hout & _ & ->)%perform_export_true Hk.
  exists written. split; [done |].
  destruct (dict_traverse_into_Ok_inv _ _ _ _ Hout _ _ Hk) as (r & Hr & Hl).
  unfold processed. rewrite Hl.
  rewrite (export_responses_empty _ _ _ _ Hr).
  unfold export_paper in Hr.
  destruct (export_responses (gui w) entry_key by_question);
    simpl in Hr; [| discriminate].
  by injection Hr as <-.
Qed.

Lemma exported_paper_is_processed_witness :
  ∃ written,
    export_json
      (_perform_export
         (example_world (example_gui 0 [] "" "") Missing [])).2
    = Document written
    ∧ processed written "P1"
      = get (excluded_papers (example_gui 0 [] "" "")) "P1" false
        || negb (responses_empty {[ "RQ1" := {[ "Category" := [] ]} ]}).
Proof.
  apply (exported_paper_is_processed
           (example_world (example_gui 0 [] "" "") Missing [])
           "P1" {[ "RQ1" := {[ "Category" := [] ]} ]}).
  - vm_compute. reflexivity.
  - reflexivity.
Defined.

(** ** Reloading a paper from the store *)

Lemma load_attribute_fresh entry_key question_key attribute selections
    (sv : gmap string (list string)) (ot dt : gmap string string) :
  sv !! attribute = None →
  load_attribute entry_key question_key attribute selections (sv, ot, dt)
  = (<[attribute := reloaded_selections selections]> sv,
     <[attribute := reloaded_Other_text selections]> ot,
     match dec_discussion_text
             (decode_selections fresh_attribute selections) with
     | Some t =>
         <[discussion_key entry_key question_key attribute := t]> dt
     | None => dt
     end).
Proof.
  intros Hnew. unfold load_attribute, reloaded_selections,
    reloaded_Other_text, get.
  rewrite bool_decide_eq_true_2 by done.
  rewrite !lookup_insert_eq. simpl. fold fresh_attribute.
  rewrite !insert_insert_eq.
  assert (∀ l d, is_Some (dec_Other_text d) →
                 is_Some (dec_Other_text (decode_selections d l))) as Hkeep.
  { induction l as [|s l IH]; intros d Hd; [done |].
    apply IH. unfold decode_selection.
    destruct (PyStr.startswith "Other: " s); [by eexists |].
    destruct (PyStr.startswith "Discussion needed: " s); [| done].
    simpl. by destruct (dec_Other_text d). }
  destruct (Hkeep selections fresh_attribute) as [t Ht]; [by eexists |].
  rewrite Ht. simpl. by rewrite insert_insert_eq.
Qed.

Lemma load_attributes_fold entry_key question_key
    (by_attribute : gmap string (list string)) (dt : gmap string string) :
  ∃ dt',
    map_fold (load_attribute entry_key question_key) (∅, ∅, dt) by_attribute
    = (reloaded_selections <$> by_attribute,
       reloaded_Other_text <$> by_attribute, dt').
Proof.
  apply (map_fold_weak_ind
           (λ r m, ∃ dt', r = (reloaded_selections <$> m,
                              reloaded_Other_text <$> m, dt'))).
  - exists dt. by rewrite !fmap_empty.
  - intros a l m r Ha [dt' ->].
    rewrite load_attribute_fresh by (by rewrite lookup_fmap, Ha).
    eexists. by rewrite !fmap_insert.
Qed.

Lemma load_question_fresh entry_key question_key by_attribute
    (sv : gmap string (gmap string (list string)))
    (ot : gmap string (gmap string string)) (dt : gmap string string) :
  sv !! question_key = None →
  ∃ dt',
    load_question entry_key question_key by_attribute (sv, ot, dt)
    = (<[question_key := reloaded_question by_attribute]> sv,
       <[question_key := reloaded_question_Other by_attribute]> ot, dt').
Proof.
  intros Hnew. unfold load_question, get.
  rewrite bool_decide_eq_true_2 by done.
  rewrite !lookup_insert_eq. simpl.
  destruct (load_attributes_fold entry_key question_key by_attribute dt)
    as [dt' ->].
  exists dt'. by rewrite !insert_insert_eq.
Qed.

Lemma load_questions_fold entry_key
    (responses : gmap string (gmap string (list string)))
    (dt : gmap string string) :
  ∃ dt',
    map_fold (load_question entry_key) (∅, ∅, dt) responses
    = (reloaded_question <$> responses,
       reloaded_question_Other <$> responses, dt').
Proof.
  apply (map_fold_weak_ind
           (λ r m, ∃ dt', r = (reloaded_question <$> m,
                              reloaded_question_Other <$> m, dt'))).
  - exists dt. by rewrite !fmap_empty.
  - intros q by_attribute m r Hq [dt' ->].
    destruct (load_question_fresh entry_key q by_attribute
                (reloaded_question <$> m)
                (reloaded_question_Other <$> m) dt') as [dt'' ->];
      [by rewrite lookup_fmap, Hq |].
    exists dt''. by rewrite !fmap_insert.
Qed.

(** The selections and "Other" texts with which [load_paper] starts a paper
    it finds in the store. *)
Lemma init_tracking_from_store entry_key (exported_data : store) r g :
  selected_values g !! entry_key = None →
  exported_data !! entry_key = Some r →
  selected_values (init_tracking entry_key (Document exported_data) g)
  = <[entry_key := reloaded_question <$> default ∅ (r_responses r)]>
      (selected_values g)
  ∧ selected_Other_text (init_tracking entry_key (Document exported_data) g)
    = <[entry_key := reloaded_question_Other <$> default ∅ (r_responses r)]>
        (selected_Other_text g).
Proof.
  intros Hnew Hr. unfold init_tracking, _load_paper_progress.
  rewrite bool_decide_eq_true_2 by done. simpl. rewrite Hr.
  set (toggle_data := default ∅ (r_toggle_states r)).
  set (mandatory_data := default ∅ (r_mandatory_texts r)).
  destruct (dict_truthy toggle_data), (dict_truthy mandatory_data); simpl;
    unfold get; rewrite !lookup_insert_eq; simpl;
    (destruct (load_questions_fold entry_key (default ∅ (r_responses r))
                 (discussion_texts g)) as [dt' ->]);
    unfold dict_truthy;
    (destruct (decide (default ∅ (r_responses r) = ∅)) as [He | Hne];
     [rewrite bool_decide_eq_true_2 by done; simpl;
      rewrite He, !fmap_empty; done
     | rewrite bool_decide_eq_false_2 by done; simpl;
       by rewrite !insert_insert_eq]).
Qed.

Lemma reloaded_encoded selections t tracked input persisted :
  Forall (λ s, plain_label s = true) selections →
  encode_selections selections (Ok t) tracked input = Ok persisted →
  reloaded_selections persisted ≡ₚ selections
  ∧ reloaded_Other_text persisted
    = (if PyList.contains "Other" selections then t else "").
Proof.
  intros Hplain. rewrite encode_selections_shape. intros [= <-].
  set (fO := PyList.contains "Other" selections && PyStr.truthy t).
  set (fD := PyList.contains "Discussion needed" selections
             && option_truthy (export_discussion_text tracked input)).
  destruct (folded_selections fO fD selections) as [Hperm _].
  { intros [H _]%andb_true_iff. by apply contains_elem_of. }
  { intros [H _]%andb_true_iff. by apply contains_elem_of. }
  unfold reloaded_selections, reloaded_Other_text.
  rewrite decode_encoded_shape
    by (destruct fO, fD; simpl; repeat apply Forall_remove; exact Hplain).
  simpl. split; [apply Hperm |].
  unfold fO. destruct (PyList.contains "Other" selections); simpl; [| done].
  by destruct t.
Qed.

Lemma export_paper_r_responses g entry_key by_question r :
  export_paper g entry_key by_question = Ok r →
  ∃ responses,
    export_responses g entry_key by_question = Ok responses
    ∧ r_responses r = Some responses.
Proof.
  unfold export_paper.
  destruct (export_responses g entry_key by_question) as [rs | e];
    simpl; [| discriminate].
  intros [= <-]. by exists rs.
Qed.

Lemma encode_selections_Ok_text selections Other_text tracked input persisted :
  encode_selections selections Other_text tracked input = Ok persisted →
  ∃ t,
    encode_selections selections (Ok t) tracked input = Ok persisted
    ∧ (PyList.contains "Other" selections = true → Other_text = Ok t)
    ∧ (PyList.contains "Other" selections = false → t = "").
Proof.
  unfold encode_selections, encode_Other.
  destruct (PyList.contains "Other" selections); [| by exists ""].
  destruct Other_text as [t | e]; [by exists t | done].
Qed.

(** X5 — Export, then reload in a later session: when [load_paper] meets a
    paper it has not yet in memory and the store holds the record that a
    successful export wrote for it, the selection list it rebuilds for
    every attribute whose labels carry neither prefix is the exported one
    up to the order of its entries, and the OtherText is the exported one
    when [Other] is selected and empty otherwise; the papers already in
    memory keep their selections. *)
Theorem reload_reconstructs_selections (w : world) (g0 : GUI)
    (entry_key : string)
    (by_question : gmap string (gmap string (list string))) :
  (_perform_export w).1 = true →
  selected_values (gui w) !! entry_key = Some by_question →
  selected_values g0 !! entry_key = None →
  let g1 := init_tracking entry_key (export_json (_perform_export w).2) g0 in
  (∀ k, k ≠ entry_key → selected_values g1 !! k = selected_values g0 !! k)
  ∧ ∀ q in_memory a selections,
      by_question !! q = Some in_memory →
      in_memory !! a = Some selections →
      Forall (λ s, plain_label s = true) selections →
      ∃ reloaded text,
        lookup3 (selected_values g1) entry_key q a = Some reloaded
        ∧ reloaded ≡ₚ selections
        ∧ lookup3 (selected_Other_text g1) entry_key q a = Some text
        ∧ (PyList.contains "Other" selections = true →
           Other_text_of (gui w) entry_key q a = Ok text)
        ∧ (PyList.contains "Other" selections = false → text = "").
Proof.
  intros (written & Hout & _ & ->)%perform_export_true Hk Hnew. simpl.
  destruct (dict_traverse_into_Ok_inv _ _ _ _ Hout _ _ Hk) as (r & Hr & Hl).
  destruct (init_tracking_from_store entry_key written r g0 Hnew Hl)
    as [-> ->].
  split; [intros k Hne; by rewrite lookup_insert_ne |].
  intros q in_memory a selections Hq Ha Hplain.
  destruct (export_paper_r_responses _ _ _ _ Hr) as (responses & Hrs & ->).
  destruct (export_responses_forward _ _ _ _ _ _ _ _ Hrs Hq Ha)
    as (by_attribute & persisted & Hq' & Ha' & Henc).
  unfold export_attribute in Henc.
  destruct (encode_selections_Ok_text _ _ _ _ _ Henc)
    as (t & Ht & Hin & Hout').
  destruct (reloaded_encoded _ _ _ _ _ Hplain Ht) as [Hperm Htext].
  exists (reloaded_selections persisted), (reloaded_Other_text persisted).
  unfold lookup3.
  rewrite !lookup_insert_eq. simpl. rewrite !lookup_fmap, Hq'. simpl.
  unfold reloaded_question, reloaded_question_Other.
  rewrite !lookup_fmap, Ha'. simpl.
  split; [done |]. split; [done |]. split; [done |].
  rewrite Htext.
  destruct (PyList.contains "Other" selections); split; auto; done.
Qed.

Lemma reload_reconstructs_selections_witness :
  (∀ k, k ≠ "P1" →
        selected_values
          (init_tracking "P1"
             (export_json
                (_perform_export
                   (example_world
                      (example_gui 0 ["Other"; "Option A"] "ad-hoc" "")
                      Missing [])).2)
             (gui scenario_world)) !! k
        = selected_values (gui scenario_world) !! k)
  ∧ ∀ q in_memory a selections,
      ({[ "RQ1" := {[ "Category" := ["Other"; "Option A"] ]} ]}
         : gmap string (gmap string (list string))) !! q = Some in_memory →
      in_memory !! a = Some selections →
      Forall (λ s, plain_label s = true) selections →
      ∃ reloaded text,
        lookup3
          (selected_values
             (init_tracking "P1"
                (export_json
                   (_perform_export
                      (example_world
                         (example_gui 0 ["Other"; "Option A"] "ad-hoc" "")
                         Missing [])).2)
                (gui scenario_world))) "P1" q a
        = Some reloaded
        ∧ reloaded ≡ₚ selections
        ∧ lookup3
            (selected_Other_text
               (init_tracking "P1"
                  (export_json
                     (_perform_export
                        (example_world
                           (example_gui 0 ["Other"; "Option A"] "ad-hoc" "")
                           Missing [])).2)
                  (gui scenario_world))) "P1" q a
          = Some text
        ∧ (PyList.contains "Other" selections = true →
           Other_text_of (example_gui 0 ["Other"; "Option A"] "ad-hoc" "")
             "P1" q a = Ok text)
        ∧ (PyList.contains "Other" selections = false → text = "").
Proof.
  apply (reload_reconstructs_selections
           (example_world (example_gui 0 ["Other"; "Option A"] "ad-hoc" "")
                          Missing [])
           (gui scenario_world) "P1"
           {[ "RQ1" := {[ "Category" := ["Other"; "Option A"] ]} ]}).
  - vm_compute. reflexivity.
  - reflexivity.
  - reflexivity.
Defined.

(** ** Exclusion, toggles and mandatory texts through the store *)

Lemma update_nested_fresh {A B} (f : A → B)
    (new : gmap string (gmap string A)) q a :
  lookup2 (update_nested f new ∅) q a = f <$> lookup2 new q a.
Proof.
  unfold lookup2, update_nested.
  apply (map_fold_weak_ind
           (λ (r : gmap string (gmap string B)) m,
              match r !! q with
              | Some by_attribute => by_attribute !! a
              | None => None
              end
              = f <$> match m !! q with
                      | Some by_attribute => by_attribute !! a
                      | None => None
                      end
              ∧ ∀ k, m !! k = None → r !! k = None)).
  - by rewrite !lookup_empty.
  - intros k attrs m r Hk [IH Hnone]. split.
    + destruct (decide (k = q)) as [-> | Hne].
      * rewrite !lookup_insert_eq. unfold get. rewrite (Hnone q Hk). simpl.
        clear. revert a.
        apply (map_fold_weak_ind
                 (λ (r : gmap string B) m, ∀ a, r !! a = f <$> m !! a)).
        -- intros a. by rewrite !lookup_empty.
        -- intros i x m r _ IH a.
           destruct (decide (i = a)) as [-> | Hne].
           ++ by rewrite !lookup_insert_eq.
           ++ rewrite !lookup_insert_ne by done. apply IH.
      * by rewrite !lookup_insert_ne.
    + intros k' Hk'. apply lookup_insert_None in Hk' as [Hk' Hne].
      rewrite lookup_insert_ne by done. by apply Hnone.
Qed.

Lemma lookup2_empty {V} q a : lookup2 (∅ : gmap string (gmap string V)) q a = None.
Proof. unfold lookup2. by rewrite lookup_empty. Qed.

Lemma export_toggles_lookup g entry_key q a :
  lookup2 (export_toggles g entry_key) q a
  = if bool_decide (lookup3 (toggle_states g) entry_key q a = Some true)
    then Some (ToggleDict (Some true)
                 (Some (get (get (get (toggle_texts g) entry_key ∅) q ∅)
                            a "")))
    else None.
Proof.
  unfold lookup2, lookup3, export_toggles.
  destruct (toggle_states g !! entry_key) as [by_question |];
    [| by rewrite lookup_empty].
  rewrite map_lookup_imap.
  destruct (by_question !! q) as [attrs |]; simpl; [| done].
  set (out := map_imap _ attrs).
  assert (out !! a
          = if bool_decide (attrs !! a = Some true)
            then Some (ToggleDict (Some true)
                         (Some (get (get (get (toggle_texts g) entry_key ∅)
                                         q ∅) a "")))
            else None) as Hout.
  { unfold out. rewrite map_lookup_imap.
    destruct (attrs !! a) as [[|] |]; simpl; try done. }
  unfold dict_truthy. destruct (decide (out = ∅)) as [He | Hne].
  - rewrite bool_decide_eq_true_2 by done. simpl.
    rewrite <- Hout, He. by rewrite lookup_empty.
  - rewrite bool_decide_eq_false_2 by done. simpl. done.
Qed.

Lemma export_mandatory_lookup g entry_key q a :
  lookup2 (export_mandatory g entry_key) q a
  = match lookup3 (mandatory_texts g) entry_key q a with
    | Some text => if PyStr.blank text then None else Some text
    | None => None
    end.
Proof.
  unfold lookup2, lookup3, export_mandatory, PyStr.blank.
  destruct (mandatory_texts g !! entry_key) as [by_question |];
    [| by rewrite lookup_empty].
  rewrite map_lookup_imap.
  destruct (by_question !! q) as [attrs |]; simpl; [| done].
  set (out := map_imap _ attrs).
  assert (out !! a
          = match attrs !! a with
            | Some text =>
                if negb (PyStr.truthy (PyStr.strip text))
                then None else Some text
            | None => None
            end) as Hout.
  { unfold out. rewrite map_lookup_imap.
    destruct (attrs !! a) as [text |]; simpl; [| done].
    by destruct (PyStr.truthy (PyStr.strip text)). }
  unfold dict_truthy. destruct (decide (out = ∅)) as [He | Hne].
  - rewrite bool_decide_eq_true_2 by done. simpl.
    rewrite <- Hout, He. by rewrite lookup_empty.
  - rewrite bool_decide_eq_false_2 by done. simpl. done.
Qed.

(** What [load_paper] restores besides the selections for a paper it finds
    in the store and has not visited in this session. *)
Lemma init_tracking_auxiliary entry_key (exported_data : store) r g :
  selected_values g !! entry_key = None →
  toggle_texts g !! entry_key = None →
  mandatory_texts g !! entry_key = None →
  exported_data !! entry_key = Some r →
  let g1 := init_tracking entry_key (Document exported_data) g in
  excluded_papers g1 !! entry_key
  = Some (default false (r_excluded_from_full_text_review r))
  ∧ excluded_reasons g1 !! entry_key
    = Some (default "" (r_exclusion_reason r))
  ∧ ∀ q a,
      lookup3 (toggle_states g1) entry_key q a
      = toggle_enabled <$> lookup2 (default ∅ (r_toggle_states r)) q a
      ∧ lookup3 (toggle_texts g1) entry_key q a
        = toggle_text <$> lookup2 (default ∅ (r_toggle_states r)) q a
      ∧ lookup3 (mandatory_texts g1) entry_key q a
        = lookup2 (default ∅ (r_mandatory_texts r)) q a.
Proof.
  intros Hnew Htt Hmt Hr. unfold init_tracking, _load_paper_progress.
  rewrite bool_decide_eq_true_2 by done. simpl. rewrite Hr.
  set (toggle_data := default ∅ (r_toggle_states r)).
  set (mandatory_data := default ∅ (r_mandatory_texts r)).
  assert (∀ q a, lookup2 (update_nested id mandatory_data ∅) q a
                 = lookup2 mandatory_data q a) as Hmand.
  { intros q a. rewrite update_nested_fresh.
    by destruct (lookup2 mandatory_data q a). }
  unfold dict_truthy.
  destruct (decide (toggle_data = ∅)) as [Htd | Htd];
    destruct (decide (mandatory_data = ∅)) as [Hmd | Hmd];
    rewrite ?(bool_decide_eq_true_2 (toggle_data = ∅)),
      ?(bool_decide_eq_false_2 (toggle_data = ∅)),
      ?(bool_decide_eq_true_2 (mandatory_data = ∅)),
      ?(bool_decide_eq_false_2 (mandatory_data = ∅)) by done;
    simpl;
    match goal with
    | |- context [map_fold (load_question entry_key) ?s ?m] =>
        destruct (map_fold (load_question entry_key) s m) as [[sv ot] dt]
    end;
    destruct (bool_decide (default ∅ (r_responses r) = ∅)); simpl;
    rewrite !lookup_insert_eq;
    (split; [done |]); (split; [done |]);
    intros q a; unfold lookup3, get; simpl;
    rewrite ?lookup_insert_eq, ?Htt, ?Hmt; simpl;
    fold (lookup2 (update_nested toggle_enabled toggle_data ∅) q a);
    fold (lookup2 (update_nested toggle_text toggle_data ∅) q a);
    fold (lookup2 (update_nested id mandatory_data ∅) q a);
    rewrite ?update_nested_fresh, ?Hmand, ?Htd, ?Hmd, ?lookup2_empty,
      ?lookup_empty;
    try done;
    by destruct (lookup2 mandatory_data q a).
Qed.

Lemma export_paper_fields g entry_key by_question r :
  export_paper g entry_key by_question = Ok r →
  r_excluded_from_full_text_review r
  = Some (get (excluded_papers g) entry_key false)
  ∧ r_exclusion_reason r = Some (get (excluded_reasons g) entry_key "")
  ∧ default ∅ (r_toggle_states r) = export_toggles g entry_key
  ∧ default ∅ (r_mandatory_texts r) = export_mandatory g entry_key.
Proof.
  unfold export_paper.
  destruct (export_responses g entry_key by_question); simpl;
    [| discriminate].
  intros [= <-]. simpl. split; [done |]. split; [done |].
  unfold dict_truthy. split.
  - destruct (decide (export_toggles g entry_key = ∅)) as [-> | Hne].
    + by rewrite bool_decide_eq_true_2.
    + by rewrite bool_decide_eq_false_2.
  - destruct (decide (export_mandatory g entry_key = ∅)) as [-> | Hne].
    + by rewrite bool_decide_eq_true_2.
    + by rewrite bool_decide_eq_false_2.
Qed.

(** X6 — Exclusion survives the store: when a later session loads a paper
    it has not visited yet from the store that a successful export wrote,
    the paper is marked excluded exactly if it was at the export, with the
    same reason. *)
Theorem reload_restores_exclusion (w : world) (g0 : GUI)
    (entry_key : string)
    (by_question : gmap string (gmap string (list string))) :
  (_perform_export w).1 = true →
  selected_values (gui w) !! entry_key = Some by_question →
  selected_values g0 !! entry_key = None →
  let g1 := init_tracking entry_key (export_json (_perform_export w).2) g0 in
  excluded_papers g1 !! entry_key
  = Some (get (excluded_papers (gui w)) entry_key false)
  ∧ excluded_reasons g1 !! entry_key
    = Some (get (excluded_reasons (gui w)) entry_key "").
Proof.
  intros (written & Hout & _ & ->)%perform_export_true Hk Hnew. simpl.
  destruct (dict_traverse_into_Ok_inv _ _ _ _ Hout _ _ Hk) as (r & Hr & Hl).
  destruct (export_paper_fields _ _ _ _ Hr) as (Hex & Hreason & _).
  unfold init_tracking, _load_paper_progress.
  rewrite bool_decide_eq_true_2 by done. simpl. rewrite Hl, Hex, Hreason.
  simpl.
  repeat match goal with
         | |- context [if ?b then _ else _] => destruct b
         | |- context [map_fold (load_question entry_key) ?s ?m] =>
             destruct (map_fold (load_question entry_key) s m) as [[? ?] ?]
         end; simpl; by rewrite !lookup_insert_eq.
Qed.

Lemma reload_restores_exclusion_witness :
  excluded_papers
    (init_tracking "P1"
       (export_json
          (_perform_export
             (example_world (gating_gui true [] [] "" "") Missing [])).2)
       (gui scenario_world)) !! "P1"
  = Some (get (excluded_papers (gating_gui true [] [] "" "")) "P1" false)
  ∧ excluded_reasons
      (init_tracking "P1"
         (export_json
            (_perform_export
               (example_world (gating_gui true [] [] "" "") Missing [])).2)
         (gui scenario_world)) !! "P1"
    = Some (get (excluded_reasons (gating_gui true [] [] "" "")) "P1" "").
Proof.
  apply (reload_restores_exclusion
           (example_world (gating_gui true [] [] "" "") Missing [])
           (gui scenario_world) "P1"
           {[ "RQ1" := {[ "Category" := []; "Method" := [] ]} ]}).
  - vm_compute. reflexivity.
  - reflexivity.
  - reflexivity.
Defined.

(** X7 — Toggles and mandatory texts through the store: only what the
    export writes comes back.  For a paper loaded in a session that has not
    visited it, a toggle is restored as enabled, with the text tracked at
    the export, exactly if it was enabled then, and a disabled toggle
    leaves no entry; a mandatory text is restored verbatim exactly if it
    was not blank, and a blank one leaves no entry. *)
Theorem reload_restores_toggles_and_mandatory_texts (w : world) (g0 : GUI)
    (entry_key : string)
    (by_question : gmap string (gmap string (list string))) :
  (_perform_export w).1 = true →
  selected_values (gui w) !! entry_key = Some by_question →
  selected_values g0 !! entry_key = None →
  toggle_texts g0 !! entry_key = None →
  mandatory_texts g0 !! entry_key = None →
  let g1 := init_tracking entry_key (export_json (_perform_export w).2) g0 in
  ∀ q a,
    let enabled :=
      bool_decide (lookup3 (toggle_states (gui w)) entry_key q a
                   = Some true) in
    lookup3 (toggle_states g1) entry_key q a
    = (if enabled then Some true else None)
    ∧ lookup3 (toggle_texts g1) entry_key q a
      = (if enabled
         then Some (get (get (get (toggle_texts (gui w)) entry_key ∅) q ∅)
                        a "")
         else None)
    ∧ lookup3 (mandatory_texts g1) entry_key q a
      = match lookup3 (mandatory_texts (gui w)) entry_key q a with
        | Some text => if PyStr.blank text then None else Some text
        | None => None
        end.
Proof.
  intros (written & Hout & _ & ->)%perform_export_true Hk Hnew Htt Hmt.
  simpl. intros q a.
  destruct (dict_traverse_into_Ok_inv _ _ _ _ Hout _ _ Hk) as (r & Hr & Hl).
  destruct (export_paper_fields _ _ _ _ Hr) as (_ & _ & Htog & Hmand).
  destruct (init_tracking_auxiliary entry_key written r g0 Hnew Htt Hmt Hl)
    as (_ & _ & Haux).
  destruct (Haux q a) as (-> & -> & ->).
  rewrite Htog, Hmand, export_toggles_lookup, export_mandatory_lookup.
  by destruct (bool_decide _).
Qed.

Lemma reload_restores_toggles_and_mandatory_texts_witness :
  lookup3
    (toggle_states
       (init_tracking "P1"
          (export_json
             (_perform_export (example_world toggle_gui Missing [])).2)
          (gui scenario_world))) "P1" "RQ1" "Category"
  = (if bool_decide (lookup3 (toggle_states toggle_gui) "P1" "RQ1" "Category"
                     = Some true)
     then Some true else None)
  ∧ lookup3
      (toggle_texts
         (init_tracking "P1"
            (export_json
               (_perform_export (example_world toggle_gui Missing [])).2)
            (gui scenario_world))) "P1" "RQ1" "Category"
    = (if bool_decide (lookup3 (toggle_states toggle_gui) "P1" "RQ1"
                         "Category" = Some true)
       then Some (get (get (get (toggle_texts toggle_gui) "P1" ∅) "RQ1" ∅)
                      "Category" "")
       else None)
  ∧ lookup3
      (mandatory_texts
         (init_tracking "P1"
            (export_json
               (_perform_export (example_world toggle_gui Missing [])).2)
            (gui scenario_world))) "P1" "RQ1" "Category"
    = match lookup3 (mandatory_texts toggle_gui) "P1" "RQ1" "Category" with
      | Some text => if PyStr.blank text then None else Some text
      | None => None
      end.
Proof.
  apply (reload_restores_toggles_and_mandatory_texts
           (example_world toggle_gui Missing []) (gui scenario_world) "P1"
           {[ "RQ1" := {[ "Category" := ["Option A"] ]} ]}).
  - vm_compute. reflexivity.
  - reflexivity.
  - reflexivity.
  - reflexivity.
  - reflexivity.
Defined.

Example toggle_reload_example :
  lookup3
    (toggle_texts
       (init_tracking "P1"
          (export_json
             (_perform_export (example_world toggle_gui Missing [])).2)
          (gui scenario_world))) "P1" "RQ1" "Category"
  = Some "pilot"
  ∧ lookup3
      (mandatory_texts
         (init_tracking "P1"
            (export_json
               (_perform_export (example_world toggle_gui Missing [])).2)
            (gui scenario_world))) "P1" "RQ1" "Category"
    = Some "n = 12".
Proof. vm_compute. split; reflexivity. Qed.

(** ** The session marker and the resume index *)

(** X8 — The session marker brings the next start back to the current
    paper: after [_save_session_state] has written the marker for an index
    inside the list, [find_first_unprocessed_paper] returns that index
    without looking at the store and without touching the state; for any
    other user the same marker is not usable. *)
Theorem session_marker_roundtrip (w : world) :
  0 ≤ current_paper_index (gui w) < Z.of_nat (length (paper_keys (gui w))) →
  next_write w = WriteOk →
  ∃ w',
    _save_session_state w = Ok w'
    ∧ find_first_unprocessed_paper w' = (current_paper_index (gui w), w')
    ∧ ∀ g, user g ≠ user (gui w) →
           session_resume_index g (session_json w') = None.
Proof.
  intros Hi Hw. eexists. split; [apply save_session_state_Ok; lia |].
  rewrite Hw. simpl. split.
  - unfold find_first_unprocessed_paper, session_resume_index. simpl.
    rewrite bool_decide_eq_true_2 by done.
    destruct (0 <=? current_paper_index (gui w)) eqn:H0; [| lia].
    destruct (current_paper_index (gui w)
              <? Z.of_nat (length (paper_keys (gui w)))) eqn:H1; [| lia].
    done.
  - intros g Hg. unfold session_resume_index. simpl.
    rewrite bool_decide_eq_false_2; [done |]. congruence.
Qed.

Lemma session_marker_roundtrip_witness :
  ∃ w',
    _save_session_state
      (example_world (example_gui 1 [] "" "") Missing []) = Ok w'
    ∧ find_first_unprocessed_paper w' = (1, w')
    ∧ ∀ g, user g ≠ "Moritz" →
           session_resume_index g (session_json w') = None.
Proof.
  apply (session_marker_roundtrip
           (example_world (example_gui 1 [] "" "") Missing [])).
  - simpl. lia.
  - reflexivity.
Defined.




(** ** The list of finished papers *)







(** ** Finishing a paper around the export *)

Lemma perform_export_false w :
  (_perform_export w).1 = false →
  ∃ e, dialogs (_perform_export w).2 = dialogs w ++ [ExportError e].
Proof.
  unfold _perform_export.
  destruct (export_output (gui w) (export_json w)) as [output | e];
    [| by exists e].
  destruct (next_write w); simpl; [discriminate | |]; by exists OSError.
Qed.

Lemma finish_paper_after_export create_question_tab validate_paper
    w entry_key :
  index_list (paper_keys (gui w)) (current_paper_index (gui w))
  = Ok entry_key →
  get (excluded_papers (gui w)) entry_key false = false →
  first_violation (gui w) = Ok None →
  validate_paper
    (exported_entry (export_json (_perform_export w).2) entry_key)
  = SanityViolations [] →
  finish_paper create_question_tab validate_paper w
  = load_paper create_question_tab (current_paper_index (gui w) + 1)
      (show Success (_perform_export w).2).
Proof.
  intros Hk Hex Hv Hs. unfold finish_paper, validate_all_required_fields.
  rewrite Hk. simpl. rewrite Hex, Hv. simpl. rewrite Hs. simpl.
  by destruct (perform_export_gui w) as (-> & _).
Qed.

(** X11 — Neither caller looks at the result of [_perform_export]: when
    the export fails, [export_data] with its message box still shows
    "Success" after the error dialog, and [finish_paper], for a paper that
    passes the validator, still runs the sanity checks on whatever
    [export.json] holds and, if they pass, shows "Success" and loads the
    next paper. *)
Theorem export_failure_does_not_stop_callers
    (create_question_tab : string → string → options_dict → GUI → result GUI)
    (validate_paper : paper_record → sanity_result)
    (w : world) (entry_key : string) :
  index_list (paper_keys (gui w)) (current_paper_index (gui w))
  = Ok entry_key →
  get (excluded_papers (gui w)) entry_key false = false →
  first_violation (gui w) = Ok None →
  (_perform_export w).1 = false →
  ∃ e,
    dialogs (export_data true w) = dialogs w ++ [ExportError e; Success]
    ∧ (validate_paper
         (exported_entry (export_json (_perform_export w).2) entry_key)
       = SanityViolations [] →
       ∃ w',
         finish_paper create_question_tab validate_paper w
         = load_paper create_question_tab
             (current_paper_index (gui w) + 1) w'
         ∧ gui w' = gui w
         ∧ dialogs w' = dialogs w ++ [ExportError e; Success]).
Proof.
  intros Hk Hex Hv Hfail.
  destruct (perform_export_false w Hfail) as [e He]. exists e.
  assert (dialogs (show Success (_perform_export w).2)
          = dialogs w ++ [ExportError e; Success]) as Hd.
  { simpl. rewrite He. by rewrite <- app_assoc. }
  split; [exact Hd |].
  intros Hs. exists (show Success (_perform_export w).2).
  split; [by apply finish_paper_after_export with entry_key |].
  split; [| exact Hd]. simpl. by destruct (perform_export_gui w) as (-> & _).
Qed.

Lemma export_failure_does_not_stop_callers_witness :
  ∃ e,
    dialogs
      (export_data true
         (example_world (example_gui 0 ["Option A"] "" "")
                        (Document example_store) [OpenFails]))
    = [] ++ [ExportError e; Success]
    ∧ (sanity_passes
         (exported_entry
            (export_json
               (_perform_export
                  (example_world (example_gui 0 ["Option A"] "" "")
                                 (Document example_store) [OpenFails])).2)
            "P1")
       = SanityViolations [] →
       ∃ w',
         finish_paper no_widgets sanity_passes
           (example_world (example_gui 0 ["Option A"] "" "")
                          (Document example_store) [OpenFails])
         = load_paper no_widgets (0 + 1) w'
         ∧ gui w' = example_gui 0 ["Option A"] "" ""
         ∧ dialogs w' = [] ++ [ExportError e; Success]).
Proof.
  apply (export_failure_does_not_stop_callers no_widgets sanity_passes
           (example_world (example_gui 0 ["Option A"] "" "")
                          (Document example_store) [OpenFails])
           "P1").
  - reflexivity.
  - reflexivity.
  - reflexivity.
  - reflexivity.
Defined.

(** X12 — After a successful export the sanity checks see the record just
    encoded from memory: for a paper held in memory that passes the
    validator, the record [finish_paper] reads back from [export.json] and
    hands to the collaborator is the one the encoder produced from the
    current state, and when the collaborator returns no violation
    [finish_paper] shows "Success" and loads the next paper. *)
Theorem finish_paper_checks_fresh_record
    (create_question_tab : string → string → options_dict → GUI → result GUI)
    (validate_paper : paper_record → sanity_result)
    (w : world) (entry_key : string)
    (by_question : gmap string (gmap string (list string))) :
  index_list (paper_keys (gui w)) (current_paper_index (gui w))
  = Ok entry_key →
  get (excluded_papers (gui w)) entry_key false = false →
  first_violation (gui w) = Ok None →
  selected_values (gui w) !! entry_key = Some by_question →
  (_perform_export w).1 = true →
  ∃ r,
    export_paper (gui w) entry_key by_question = Ok r
    ∧ exported_entry (export_json (_perform_export w).2) entry_key = r
    ∧ (validate_paper r = SanityViolations [] →
       finish_paper create_question_tab validate_paper w
       = load_paper create_question_tab (current_paper_index (gui w) + 1)
           (show Success (_perform_export w).2)).
Proof.
  intros Hk Hex Hv Hsv Htrue.
  destruct (perform_export_true w Htrue) as (written & Hout & _ & Hw).
  destruct (dict_traverse_into_Ok_inv _ _ _ _ Hout _ _ Hsv) as (r & Hr & Hl).
  exists r. split; [done |].
  assert (exported_entry (export_json (_perform_export w).2) entry_key = r)
    as Hentry.
  { rewrite Hw. unfold exported_entry, get. simpl. by rewrite Hl. }
  split; [done |]. intros Hs.
  apply finish_paper_after_export with entry_key; try done.
  by rewrite Hentry.
Qed.

Lemma finish_paper_checks_fresh_record_witness :
  ∃ r,
    export_paper (example_gui 0 ["Option A"] "" "") "P1"
      {[ "RQ1" := {[ "Category" := ["Option A"] ]} ]} = Ok r
    ∧ exported_entry
        (export_json
           (_perform_export
              (example_world (example_gui 0 ["Option A"] "" "")
                             Missing [])).2) "P1" = r
    ∧ (sanity_passes r = SanityViolations [] →
       finish_paper no_widgets sanity_passes
         (example_world (example_gui 0 ["Option A"] "" "") Missing [])
       = load_paper no_widgets (0 + 1)
           (show Success
              (_perform_export
                 (example_world (example_gui 0 ["Option A"] "" "")
                                Missing [])).2)).
Proof.
  apply (finish_paper_checks_fresh_record no_widgets sanity_passes
           (example_world (example_gui 0 ["Option A"] "" "") Missing [])
           "P1" {[ "RQ1" := {[ "Category" := ["Option A"] ]} ]}).
  - reflexivity.
  - reflexivity.
  - reflexivity.
  - reflexivity.
  - vm_compute. reflexivity.
Defined.

(** ** What the validator accepts *)

Lemma singleton_if_nil {A} (b : bool) (x : A) :
  (if b then [x] else []) = [] ↔ b = false.
Proof. destruct b; split; done. Qed.

Lemma pair_violations_nil_iff g entry_key question_key by_question
    attribute options :
  pair_violations g entry_key question_key by_question attribute options = []
  ↔ pair_complete g entry_key question_key by_question attribute options.
Proof.
  unfold pair_violations, pair_complete.
  set (selections := get (get by_question question_key ∅) attribute []).
  set (input := discussion_text_inputs g
                  !! discussion_key entry_key question_key attribute).
  set (mandatory := get (get (get (mandatory_texts g) entry_key ∅)
                             question_key ∅) attribute "").
  rewrite !app_nil, !singleton_if_nil.
  assert (bool_decide (selections = []) = false ↔ selections ≠ []) as ->
    by apply bool_decide_eq_false.
  assert (PyList.contains "Discussion needed" selections
          && from_option PyStr.blank false input = false
          ↔ ("Discussion needed" ∈ selections →
             ∀ text, input = Some text → PyStr.blank text = false)) as ->.
  { rewrite andb_false_iff, contains_not_elem_of. split.
    - intros [Hn | Hb] Hin text Ht; [done |]. by rewrite Ht in Hb.
    - intros H. destruct (decide ("Discussion needed" ∈ selections));
        [| by left].
      right. destruct input as [text |]; [by apply H | done]. }
  split.
  - intros (Hs & Hd & Hm). split; [done |]. split; [done |].
    intros opts toggle cfg -> Hen. simpl in Hm.
    rewrite Hen in Hm. simpl in Hm.
    rewrite (bool_decide_eq_false_2 _ Hs) in Hm. simpl in Hm.
    by apply singleton_if_nil in Hm.
  - intros (Hs & Hd & Hm). split; [done |]. split; [done |].
    destruct options as [? | opts toggle [cfg |]]; try done.
    apply singleton_if_nil.
    destruct (mtf_enabled cfg) eqn:Hen; [| done]. simpl.
    rewrite (bool_decide_eq_false_2 _ Hs). simpl.
    by apply (Hm opts toggle cfg).
Qed.

(** X13 — The validator lets through exactly the complete papers: for a
    paper held in memory that is not excluded, [validate_all_required_fields]
    returns [True], without a dialog, if and only if every attribute of the
    question/attribute definition has a selection, every discussion line
    edit of an attribute with [Discussion needed] selected holds a text
    that is not blank, and every enabled mandatory text field is filled. *)
Theorem validator_accepts_exactly_complete_papers (w : world)
    (entry_key : string)
    (by_question : gmap string (gmap string (list string))) :
  index_list (paper_keys (gui w)) (current_paper_index (gui w))
  = Ok entry_key →
  get (excluded_papers (gui w)) entry_key false = false →
  selected_values (gui w) !! entry_key = Some by_question →
  validate_all_required_fields w = Ok (true, w)
  ↔ ∀ question_key attributes attribute options,
      (question_key, attributes) ∈ data (gui w) →
      (attribute, options) ∈ attributes →
      pair_complete (gui w) entry_key question_key by_question
                    attribute options.
Proof.
  intros Hk Hex Hsv. unfold validate_all_required_fields.
  rewrite (first_violation_head _ _ _ Hk Hex Hsv). simpl.
  set (violations := all_violations (gui w) entry_key by_question
                                    (data (gui w))).
  assert (violations = []
          ↔ ∀ question_key attributes attribute options,
              (question_key, attributes) ∈ data (gui w) →
              (attribute, options) ∈ attributes →
              pair_complete (gui w) entry_key question_key by_question
                            attribute options) as <-.
  { split.
    - intros Hnil q attrs a o Hq Ha. apply pair_violations_nil_iff.
      destruct (pair_violations _ _ _ _ _ _) as [|v l] eqn:Hp; [done |].
      assert (v ∈ violations) as Hin.
      { apply (elem_of_all_violations _ _ _ _ _ _ _ _ _ Hq Ha).
        rewrite Hp. apply list_elem_of_here. }
      rewrite Hnil in Hin. by apply elem_of_nil in Hin.
    - intros Hall. destruct violations as [|v l] eqn:Hv; [done |].
      assert (v ∈ violations) as Hin
        by (rewrite Hv; apply list_elem_of_here).
      apply elem_of_all_violations_inv in Hin
        as (q & attrs & a & o & Hq & Ha & Hin).
      specialize (Hall q attrs a o Hq Ha).
      apply pair_violations_nil_iff in Hall.
      rewrite Hall in Hin. by apply elem_of_nil in Hin. }
  destruct violations; simpl; split; done.
Qed.

Lemma validator_accepts_exactly_complete_papers_witness :
  validate_all_required_fields
    (example_world (example_gui 0 ["Option A"] "" "") Missing [])
  = Ok (true, example_world (example_gui 0 ["Option A"] "" "") Missing [])
  ↔ ∀ question_key attributes attribute options,
      (question_key, attributes) ∈ example_schema →
      (attribute, options) ∈ attributes →
      pair_complete (example_gui 0 ["Option A"] "" "") "P1" question_key
                    {[ "RQ1" := {[ "Category" := ["Option A"] ]} ]}
                    attribute options.
Proof.
  apply (validator_accepts_exactly_complete_papers
           (example_world (example_gui 0 ["Option A"] "" "") Missing [])
           "P1" {[ "RQ1" := {[ "Category" := ["Option A"] ]} ]}).
  - reflexivity.
  - reflexivity.
  - reflexivity.
Defined.

(** ** Leaving the application *)



